(** * Remini: a Gemini gateway to Reddit (remini.py)

    A shallow embedding of [remini.py] and the properties its design
    document states about it.

    Conventions of the embedding.
    - A Python [str] is a [string]; a character is an 8-bit code point.
    - A Python [int] is a [Z], a [list] is a [list], [bytes] is a list of
      [Byte.byte].
    - A Python call that may raise returns a [result]; [Raise] carries the
      exception.  The [try]/[except AttributeError] blocks of the source read
      attributes that may be missing: such attributes are [option] fields.
    - The functions imported from the Python library and from [md2gemini]
      ([unquote], [urlparse], [md2gemini], the [datetime] formatting) are the
      methods of the class [PyLib]: every general theorem holds for all of
      their implementations.  The instance [reflib] at the end of the
      definitions is used to run the embedding on concrete requests.
    - The PRAW handle [reddit] is a record of remote look-ups, each of which
      may fail; PRAW's lazily fetched objects are the records they resolve to.
    - Exceptions raised inside a library or by the remote API are [External],
      whatever their Python class.
    - Calls to [logging] have no effect on results and are left out. *)

From Stdlib Require Import ZArith Ascii DecimalString.
From stdpp Require Import base option list strings gmap.

Set Warnings "-register-all".

(** ** Exceptions and results *)

Inductive exn :=
  | IndexError
  | AttributeError (attr : string)
  | ValueError (msg : string)
  | External.

Inductive result (A : Type) :=
  | Ok (a : A)
  | Raise (e : exn).
Arguments Ok {A} a.
Arguments Raise {A} e.

#[global] Instance result_ret : MRet result := fun _ a => Ok a.
#[global] Instance result_bind : MBind result := fun _ _ f m =>
  match m with
  | Ok a => f a
  | Raise e => Raise e
  end.

(** A call into an imported library or the remote API returns, or fails with
    an exception of that library: [None].  Whatever its Python class, such
    an exception is [External]; the other constructors of [exn] are the
    exceptions raised by statements of the program itself. *)
Definition external {A} (call : option A) : result A :=
  match call with
  | Some a => Ok a
  | None => Raise External
  end.


Definition raises {A} (m : result A) : Prop := exists e, m = Raise e.

(** [for x in xs: acc = body(acc, x)] with a body that may raise. *)
Fixpoint for_each {A S} (body : S -> A -> result S) (acc : S) (xs : list A)
  : result S :=
  match xs with
  | [] => Ok acc
  | x :: xs' => acc' ← body acc x; for_each body acc' xs'
  end.

(** ** Python string operations used by the program *)

Module Py.

Definition chr (n : N) : ascii := ascii_of_N n.
Definition ord (a : ascii) : N := N_of_ascii a.

(** [c in chars] for a character and a string. *)
Fixpoint char_in (c : ascii) (chars : string) : bool :=
  match chars with
  | EmptyString => false
  | String d rest => if Ascii.eqb c d then true else char_in c rest
  end.

(** [str.isspace] on one character (code points below 256). *)
Definition isspace (c : ascii) : bool :=
  let n := ord c in
  ((9 <=? n) && (n <=? 13) || (28 <=? n) && (n <=? 32)
   || (n =? 133) || (n =? 160))%N.

Fixpoint lstrip_by (p : ascii -> bool) (s : string) : string :=
  match s with
  | EmptyString => EmptyString
  | String c rest => if p c then lstrip_by p rest else s
  end.

Fixpoint rstrip_by (p : ascii -> bool) (s : string) : string :=
  match s with
  | EmptyString => EmptyString
  | String c rest =>
      match rstrip_by p rest with
      | EmptyString => if p c then EmptyString else String c EmptyString
      | r => String c r
      end
  end.

(** [s.lstrip(chars)], [s.rstrip(chars)], [s.strip(chars)], [s.strip()]. *)
Definition lstrip (chars s : string) : string :=
  lstrip_by (fun c => char_in c chars) s.
Definition rstrip (chars s : string) : string :=
  rstrip_by (fun c => char_in c chars) s.
Definition strip (chars s : string) : string := lstrip chars (rstrip chars s).
Definition strip_ws (s : string) : string :=
  lstrip_by isspace (rstrip_by isspace s).

(** [s.startswith(p)]. *)
Fixpoint startswith (p s : string) : bool :=
  match p, s with
  | EmptyString, _ => true
  | String a p', String b s' => if Ascii.eqb a b then startswith p' s' else false
  | String _ _, EmptyString => false
  end.

(** [s.split(sep)] for a one-character separator: never the empty list. *)
Fixpoint split (sep : ascii) (s : string) : list string :=
  match s with
  | EmptyString => [EmptyString]
  | String c rest =>
      if Ascii.eqb c sep then EmptyString :: split sep rest
      else match split sep rest with
           | tok :: toks => String c tok :: toks
           | [] => [String c EmptyString]
           end
  end.

(** [sep.join(parts)]. *)
Fixpoint join (sep : string) (parts : list string) : string :=
  match parts with
  | [] => EmptyString
  | [p] => p
  | p :: rest => p +:+ sep +:+ join sep rest
  end.

(** [str(n)] for an [int]. *)
Definition str (n : Z) : string := NilZero.string_of_int (Z.to_int n).

(** [xs[i]] for [i >= 0]. *)
Definition getitem {A} (xs : list A) (i : nat) : result A :=
  match xs !! i with
  | Some x => Ok x
  | None => Raise IndexError
  end.

(** [xs[-1]]. *)
Definition getlast {A} (xs : list A) : result A :=
  match last xs with
  | Some x => Ok x
  | None => Raise IndexError
  end.

(** [xs[-1] = v]. *)
Definition setlast {A} (xs : list A) (v : A) : result (list A) :=
  match xs with
  | [] => Raise IndexError
  | _ => Ok (<[pred (length xs) := v]> xs)
  end.

(** [xs[i] = v] for [i >= 0]. *)
Definition setitem {A} (xs : list A) (i : nat) (v : A) : result (list A) :=
  if decide (i < length xs) then Ok (<[i := v]> xs) else Raise IndexError.

(** [xs.pop()], keeping the remaining list. *)
Definition pop {A} (xs : list A) : result (list A) :=
  match xs with
  | [] => Raise IndexError
  | _ => Ok (removelast xs)
  end.

(** [xs[-2:]]. *)
Definition last_two {A} (xs : list A) : list A :=
  drop (length xs - 2) xs.

(** [s.encode()]: UTF-8. *)
Definition encode_char (c : ascii) : list Byte.byte :=
  let n := ord c in
  if (n <? 128)%N then [byte_of_ascii c]
  else [byte_of_ascii (chr (192 + n / 64)); byte_of_ascii (chr (128 + n mod 64))].

Fixpoint encode (s : string) : list Byte.byte :=
  match s with
  | EmptyString => []
  | String c rest => encode_char c ++ encode rest
  end.

(** Truth value testing: [if x:], [if not x:]. *)
Class Truth (T : Type) := truth : T -> bool.
#[global] Instance truth_str : Truth string := fun s =>
  match s with EmptyString => false | _ => true end.
#[global] Instance truth_list {A} : Truth (list A) := fun xs =>
  match xs with [] => false | _ => true end.
#[global] Instance truth_bool : Truth bool := fun b => b.
(** [None] and the empty string are both false. *)
#[global] Instance truth_option {A} `{Truth A} : Truth (option A) := fun o =>
  match o with None => false | Some a => truth a end.

End Py.

(** ** The imported library functions *)

(** The fields of [urllib.parse.urlparse]'s result that the program reads. *)
Module Url.
Record t := Parsed {
  scheme : string;
  netloc : string;
  path : string;
  query : string
}.
End Url.

Class PyLib := {
  (** [urllib.parse.unquote] *)
  unquote : string -> string;
  (** [urllib.parse.urlparse]; it raises on some inputs *)
  urlparse : string -> option Url.t;
  (** [md2gemini(md, links='paragraph')] *)
  md2gemini : string -> string;
  (** [datetime.utcfromtimestamp(t).strftime(fmt)] *)
  utc_strftime : Z -> string -> string
}.

(** ** Module-level configuration *)

Class Env := {
  BASE_URL : string;
  (** [os.environ.get('REMINI_LANDING_PAGE')] *)
  LANDING_PAGE : option string;
  (** [open(name).readlines()] *)
  readlines : string -> option (list string)
}.

Definition LF : string := String (Py.chr 10) EmptyString.
Definition CR : string := String (Py.chr 13) EmptyString.
Definition QUOTE : string := String (Py.chr 34) EmptyString.
Definition NO_LANDING_PAGE : string :=
  "Remini is working, but no landing page has been set.".

Definition DATE_FMT : string := "%d/%m/%Y".
Definition DATETIME_FMT : string := DATE_FMT +:+ " at %H:%M UTC".
Definition ITEM_LIMIT : nat := 25.
Definition GENERIC_ERR_MSG : string :=
  "Got unexpected error. This could include the page not being available, "
  +:+ "Reddit being down, or some other error. Details of the error have been logged.".
Definition REDDIT_DOMAINS : list (list string) :=
  [ ["redd"; "it"]; ["reddit"; "com"] ].

(** ** PRAW objects *)

(** A [praw.models.ListingGenerator]: an iterator over at most [lg_limit]
    items of a remote listing.  The class defines neither [__bool__] nor
    [__len__], so its truth value is [True] whatever it will yield. *)
Record ListingGenerator (A : Type) := Listing {
  lg_limit : nat;
  lg_source : list A
}.
Arguments Listing {A} lg_limit lg_source.
Arguments lg_limit {A} l.
Arguments lg_source {A} l.

#[global] Instance truth_listing {A} : Py.Truth (ListingGenerator A) :=
  fun _ => true.

(** The items a [for] loop over the generator visits. *)
Definition iterate {A} (g : ListingGenerator A) : list A :=
  take (lg_limit g) (lg_source g).

Record Submission := {
  s_title : string;
  s_url : string;
  s_author : option string;
  s_created_utc : Z;
  s_edited : bool;
  s_score : Z;
  s_permalink : string;
  s_num_comments : Z;
  s_selftext : string
}.

(** [c_replies] is the comment's [CommentForest]; [len] and slicing act on
    its list of top-level items. *)
Inductive Comment := mkComment {
  c_author : option string;
  c_created_utc : Z;
  c_edited : bool;
  c_body : string;
  c_permalink : string;
  c_score : Z;
  c_parent_id : string;
  c_submission_title : string;
  c_replies : list Comment
}.

Record Subreddit := {
  sr_display_name : string;
  sr_created_utc : Z;
  sr_subscribers : Z;
  sr_hot : list Submission;
  sr_top : list Submission;
  sr_new : list Submission;
  sr_controversial : list Submission
}.

(** The attributes of a fetched [Redditor].  Reddit sends [is_suspended]
    only for some accounts, and leaves the profile attributes out for a
    suspended one: each is optional, and reading a missing one raises
    [AttributeError]. *)
Record Redditor := {
  r_is_suspended : option bool;
  r_created_utc : option Z;
  r_link_karma : option Z;
  r_comment_karma : option Z;
  r_submissions_new : list Submission;
  r_comments_new : list Comment
}.

Definition getattr {A} (name : string) (field : option A) : result A :=
  match field with
  | Some a => Ok a
  | None => Raise (AttributeError name)
  end.

(** The module-level [reddit] handle.  PRAW objects are lazy: the first
    attribute read fetches the object, and the fetch may fail ([None]). *)
Class Reddit := {
  subreddit : string -> option Subreddit;
  (** the submission with its top-level comments ([submission.comments]) *)
  submission : string -> option (Submission * list Comment);
  (** [reddit.comment(id)] followed by [refresh()] *)
  comment : string -> option Comment;
  redditor : string -> option Redditor
}.

Definition hot (sr : Subreddit) (limit : nat) := Listing limit (sr_hot sr).
Definition top (sr : Subreddit) (limit : nat) := Listing limit (sr_top sr).
Definition new (sr : Subreddit) (limit : nat) := Listing limit (sr_new sr).
Definition controversial (sr : Subreddit) (limit : nat) :=
  Listing limit (sr_controversial sr).
Definition submissions_new (r : Redditor) (limit : nat) :=
  Listing limit (r_submissions_new r).
Definition comments_new (r : Redditor) (limit : nat) :=
  Listing limit (r_comments_new r).

(** Duck typing: [obj.author], [obj.created_utc], [obj.edited]. *)
Class HasAuthor (T : Type) := author_of : T -> option string.
Class Dated (T : Type) := {
  created_utc : T -> result Z;
  (** [None] when the object has no [edited] attribute *)
  edited : T -> option bool
}.

#[global] Instance submission_author : HasAuthor Submission := s_author.
#[global] Instance comment_author : HasAuthor Comment := c_author.
#[global] Instance submission_dated : Dated Submission :=
  {| created_utc s := Ok (s_created_utc s); edited s := Some (s_edited s) |}.
#[global] Instance comment_dated : Dated Comment :=
  {| created_utc c := Ok (c_created_utc c); edited c := Some (c_edited c) |}.
#[global] Instance subreddit_dated : Dated Subreddit :=
  {| created_utc sr := Ok (sr_created_utc sr); edited _ := None |}.
#[global] Instance redditor_dated : Dated Redditor :=
  {| created_utc r := getattr "created_utc" (r_created_utc r);
     edited _ := None |}.

(** ** Responses *)

Definition bytes := list Byte.byte.

(** The value of [handle_request]: [Union[bytes, bool]]. *)
Inductive retval :=
  | RBool (b : bool)
  | RBytes (b : bytes).

#[global] Instance truth_retval : Py.Truth retval := fun r =>
  match r with
  | RBool b => b
  | RBytes b => Py.truth b
  end.

Definition ok (lines : list string) (join_on_newline : bool) : bytes :=
  let content :=
    if join_on_newline then Py.join LF lines else Py.join "" lines in
  Py.encode ("20 text/gemini" +:+ CR +:+ LF +:+ content +:+ LF).

Definition bad_request (msg : string) : bytes :=
  Py.encode ("59 " +:+ msg +:+ CR +:+ LF).

Definition get_input (msg : string) : bytes :=
  Py.encode ("10 " +:+ msg +:+ CR +:+ LF).

Definition redirect (url : string) (perm : bool) : bytes :=
  let code := if perm then 31%Z else 30%Z in
  Py.encode (Py.str code +:+ " " +:+ url +:+ CR +:+ LF).

(** ** The path router *)

(** The four page renderers the router dispatches to.  Python looks the
    names [display_comment], ... up when the call is made; the embedding
    passes them to the router, which breaks the cycle
    [parse_reddit_url -> handle_request -> display_* -> parse_reddit_url]. *)
Record Pages := {
  display_comment_page : string -> result (list string);
  display_submission_page : string -> result (list string);
  display_subreddit_page : string -> string -> Z -> result (list string);
  display_redditor_page : string -> result (list string)
}.

(** Pages for a router that is only asked whether it supports a path. *)
Definition no_pages : Pages :=
  {| display_comment_page _ := Ok [];
     display_submission_page _ := Ok [];
     display_subreddit_page _ _ _ := Ok [];
     display_redditor_page _ := Ok [] |}.

Section Router.
Context {lib : PyLib} {env : Env}.
Variable pages : Pages.

Definition handle_r (tokens : list string) (path query : string)
    (check_only : bool) : result retval :=
  if bool_decide (5 <= length tokens)
     && bool_decide (tokens !! 1 = Some "comments") then
    comment_id ← Py.getitem tokens 4;
    if check_only then Ok (RBool true)
    else
      lines ← display_comment_page pages comment_id;
      Ok (RBytes (ok lines true))
  else if bool_decide (3 <= length tokens)
          && bool_decide (tokens !! 1 = Some "comments") then
    submission_id ← Py.getitem tokens 2;
    if check_only then Ok (RBool true)
    else
      lines ← display_submission_page pages submission_id;
      Ok (RBytes (ok lines true))
  else if bool_decide (length tokens = 1) then
    name ← Py.getitem tokens 0;
    if check_only then Ok (RBool true)
    else
      (* display_subreddit(name): sortby='hot', limit=10 by default *)
      lines ← display_subreddit_page pages name "hot" 10%Z;
      Ok (RBytes (ok lines true))
  else if Py.truth tokens then
    if check_only then Ok (RBool false)
    else Ok (RBytes (bad_request ("Request invalid or not supported: " +:+ path)))
  else
    if check_only then Ok (RBool true)
    else if Py.truth query then
      let redirect_to := BASE_URL +:+ "r/" +:+ query in
      Ok (RBytes (redirect redirect_to true))
    else Ok (RBytes (get_input "Enter subreddit name:")).

Definition handle_u (tokens : list string) (path query : string)
    (check_only : bool) : result retval :=
  if Py.truth tokens then
    if bool_decide (length tokens = 1) then
      if check_only then Ok (RBool true)
      else
        name ← Py.getitem tokens 0;
        lines ← display_redditor_page pages name;
        Ok (RBytes (ok lines true))
    else
      if check_only then Ok (RBool false)
      else Ok (RBytes (bad_request ("Request invalid or not supported: " +:+ path)))
  else
    if check_only then Ok (RBool true)
    else if Py.truth query then
      let redirect_to := BASE_URL +:+ "u/" +:+ query in
      Ok (RBytes (redirect redirect_to true))
    else Ok (RBytes (get_input "Enter Redditor name:")).

(** The token list of [handle_request], from the trimmed, non-blank path:
    lines 641-648 of the source. *)
Definition request_tokens (path : string) : result (list string) :=
  let tokens := Py.split "/" (unquote path) in
  t0 ← Py.getitem tokens 0;
  let tokens := if negb (Py.truth t0) then drop 1 tokens else tokens in
  tl ← Py.getlast tokens;
  if negb (Py.truth tl) then Py.pop tokens else Ok tokens.

Definition handle_request (path query : string) (check_only : bool)
    : result retval :=
  let path := Py.strip "/" (Py.strip_ws path) in
  if negb (Py.truth path) then
    if check_only then Ok (RBool true)
    else
      match LANDING_PAGE with
      | Some f =>
          if Py.truth f then
            lines ← external (readlines f);
            Ok (RBytes (ok lines false))
          else Ok (RBytes (ok [NO_LANDING_PAGE] true))
      | None => Ok (RBytes (ok [NO_LANDING_PAGE] true))
      end
  else
    tokens ← request_tokens path;
    cmd ← Py.getitem tokens 0;
    if bool_decide (cmd = "r") then
      handle_r (drop 1 tokens) path query check_only
    else if bool_decide (cmd = "u") then
      handle_u (drop 1 tokens) path query check_only
    else
      if check_only then Ok (RBool false)
      else Ok (RBytes (bad_request ("Couldn't parse path " +:+ QUOTE +:+ path
                                    +:+ QUOTE +:+ "."))).

End Router.

(** ** URL classifier, markdown adapter and content formatters *)

Section Gateway.
Context {lib : PyLib} {env : Env} {reddit : Reddit}.

Definition date_time {T} `{Dated T} (obj : T) (date_only : bool)
    : result string :=
  let fmt := if date_only then DATE_FMT else DATETIME_FMT in
  t ← created_utc obj;
  let s := utc_strftime t fmt in
  match edited obj with
  | Some e => if Py.truth e then Ok (s +:+ "*") else Ok s
  | None => Ok s  (* except AttributeError: pass *)
  end.

Definition author {T} `{HasAuthor T} (obj : T) : string :=
  match author_of obj with
  | Some name => name
  | None => "[deleted]"  (* except AttributeError *)
  end.

(** In check-only mode the router renders nothing, so the classifier's
    call of [handle_request] is given [no_pages]. *)
Definition parse_reddit_url (url : string) : result string :=
  parsed ← external (urlparse url);
  let reddit_url :=
    if negb (Py.truth (Url.scheme parsed) || Py.truth (Url.netloc parsed))
    then true
    else
      let domain := Py.last_two (Py.split "." (Url.netloc parsed)) in
      existsb (fun d => bool_decide (d = domain)) REDDIT_DOMAINS in
  supported ←
    (if reddit_url
     then r ← handle_request no_pages (Url.path parsed) (Url.query parsed) true;
          Ok (Py.truth r)
     else Ok false);
  if supported : bool then
    let new_url := BASE_URL +:+ Py.lstrip "/" (Url.path parsed) in
    Ok new_url
  else Ok url.

Definition get_submission_url (c : Comment) : result string :=
  parse_reddit_url
    (Py.join "/" (removelast (Py.split "/" (Py.rstrip "/" (c_permalink c))))).

Definition get_parent_url (c : Comment) : result (string * bool) :=
  let parent_id := c_parent_id c in
  if Py.startswith "t1_" parent_id then
    let fragments := Py.split "/" (Py.rstrip "/" (c_permalink c)) in
    fragments ← Py.setlast fragments (Py.lstrip "t1_" parent_id);
    url ← parse_reddit_url (Py.join "/" fragments);
    Ok (url, false)
  else if Py.startswith "t3_" parent_id then
    url ← get_submission_url c;
    Ok (url, true)
  else
    Raise (ValueError ("Bad ID " +:+ QUOTE +:+ parent_id +:+ QUOTE
                       +:+ ". Expecting it to start with t1_ or t3_.")).

(** The body of the loop of [parse_markdown]: [gemtext] is updated in
    place at index [i]. *)
Definition parse_markdown_step (gemtext : list string) (i : nat)
    : result (list string) :=
  line ← Py.getitem gemtext i;
  if Py.startswith "#" line || Py.startswith "##" line then
    Py.setitem gemtext i ("#" +:+ line)
  else if Py.startswith "=> " line then
    let tokens := Py.split " " line in
    t1 ← Py.getitem tokens 1;
    u ← parse_reddit_url t1;
    tokens ← Py.setitem tokens 1 u;
    Py.setitem gemtext i (Py.join " " tokens)
  else Ok gemtext.

Definition parse_markdown (md : string) : result (list string) :=
  let gemtext := Py.split (Py.chr 10) (md2gemini md) in
  for_each parse_markdown_step gemtext (seq 0 (length gemtext)).

Definition submission_summary (s : Submission) : result (list string) :=
  let lines := [] in
  url ← parse_reddit_url (s_url s);
  let lines := lines ++ ["=> " +:+ url +:+ " " +:+ s_title s] in
  let author_name := author s in
  timestamp ← date_time s false;
  parsed ← external (urlparse (s_url s));
  let scheme := Url.scheme parsed in
  let netloc := Url.netloc parsed in
  let lines := lines ++
    ["created by " +:+ author_name +:+ " on " +:+ timestamp +:+ " - "
     +:+ Py.str (s_score s) +:+ " upvotes (" +:+ scheme +:+ ", " +:+ netloc
     +:+ ")"] in
  comments_url ← parse_reddit_url (s_permalink s);
  let lines := lines ++
    ["=> " +:+ comments_url +:+ " " +:+ Py.str (s_num_comments s)
     +:+ " comments"] in
  Ok lines.

Definition comment_summary (c : Comment) (show_num_replies : bool)
    : result (list string) :=
  let author_name := author c in
  timestamp ← date_time c false;
  body ← parse_markdown (c_body c);
  url ← parse_reddit_url (c_permalink c);
  let metadata := Py.str (c_score c) +:+ " upvotes" in
  let metadata :=
    if show_num_replies
    then metadata +:+ ", " +:+ Py.str (Z.of_nat (length (c_replies c)))
         +:+ " direct replies"
    else metadata in
  Ok (["=> " +:+ url +:+ " Comment by " +:+ author_name +:+ " at " +:+ timestamp;
       metadata;
       ""] ++ body).

(** [for s in submissions: lines.extend(submission_summary(s)); lines.append('')] *)
Definition extend_submission (lines : list string) (s : Submission)
    : result (list string) :=
  summary ← submission_summary s;
  Ok ((lines ++ summary) ++ [""]).

(** [for c in comments: lines.extend(comment_summary(c, ...)); lines.append('')] *)
Definition extend_comment (show_num_replies : bool) (lines : list string)
    (c : Comment) : result (list string) :=
  summary ← comment_summary c show_num_replies;
  Ok ((lines ++ summary) ++ [""]).

Definition display_subreddit (name sortby : string) (limit : Z)
    : result (list string) :=
  sr ← external (subreddit name);
  timestamp ← date_time sr true;
  let lines :=
    ["# Subreddit: " +:+ sr_display_name sr;
     "Created on " +:+ timestamp +:+ ". " +:+ Py.str (sr_subscribers sr)
     +:+ " subscribers.";
     "";
     "## Submissions" +:+ ""] in
  submissions ←
    (if bool_decide (sortby = "hot") then Ok (hot sr ITEM_LIMIT)
     else if bool_decide (sortby = "top") then Ok (top sr ITEM_LIMIT)
     else if bool_decide (sortby = "new") then Ok (new sr ITEM_LIMIT)
     else if bool_decide (sortby = "controversial")
          then Ok (controversial sr ITEM_LIMIT)
     else Raise (ValueError ("Bad value for sortby: " +:+ QUOTE +:+ sortby
                             +:+ QUOTE +:+ ".")));
  let lines :=
    if negb (Py.truth submissions) then lines ++ ["There's nothing here!"]
    else lines in
  for_each extend_submission lines (iterate submissions).

Definition display_submission (submission_id : string)
    : result (list string) :=
  '(sub, forest) ← external (submission submission_id);
  timestamp ← date_time sub false;
  let comments := take ITEM_LIMIT forest in
  let total_comments := length forest in
  let showing_comments := length comments in
  let lines :=
    ["# " +:+ s_title sub;
     "=> " +:+ s_url sub;
     "created by " +:+ author sub +:+ " on " +:+ timestamp;
     Py.str (s_score sub) +:+ " upvotes, " +:+ Py.str (Z.of_nat total_comments)
     +:+ " top-level comments (showing "
     +:+ Py.str (Z.of_nat showing_comments) +:+ ")";
     ""] in
  lines ←
    (if Py.truth (s_selftext sub)
     then body ← parse_markdown (s_selftext sub); Ok (lines ++ body ++ [""])
     else Ok lines);
  let lines := lines ++ [""; "# Comments"; ""] in
  if negb (Py.truth comments) then Ok (lines ++ ["There's nothing here!"])
  else for_each (extend_comment true) lines comments.

Definition display_comment (comment_id : string) : result (list string) :=
  c ← external (comment comment_id);
  let author_name := author c in
  timestamp ← date_time c false;
  body ← parse_markdown (c_body c);
  let replies := take ITEM_LIMIT (c_replies c) in
  let total_replies := length (c_replies c) in
  let showing_replies := length replies in
  submission_url ← get_submission_url c;
  let lines :=
    ["# Comment by " +:+ author_name +:+ " on " +:+ timestamp;
     Py.str (c_score c) +:+ " upvotes, " +:+ Py.str (Z.of_nat total_replies)
     +:+ " direct replies (showing " +:+ Py.str (Z.of_nat showing_replies)
     +:+ ")";
     "=> " +:+ submission_url +:+ " View submission: "
     +:+ c_submission_title c] in
  '(parent_url, is_submission) ← get_parent_url c;
  let lines :=
    if negb is_submission
    then lines ++ ["=> " +:+ parent_url +:+ " View parent comment"]
    else lines in
  let lines := lines ++ [""] ++ body ++ [""; ""; "# Replies"; ""] in
  if negb (Py.truth replies) then Ok (lines ++ ["There's nothing here!"])
  else for_each (extend_comment true) lines replies.

Definition display_redditor (name : string) : result (list string) :=
  let lines := ["# Redditor: " +:+ name] in
  r ← external (redditor name);
  match r_is_suspended r with
  | Some true => Ok (lines ++ ["User is banned or suspended."])
  | _ =>  (* falsy, or except AttributeError: pass *)
    timestamp ← date_time r true;
    link_karma ← getattr "link_karma" (r_link_karma r);
    comment_karma ← getattr "comment_karma" (r_comment_karma r);
    let lines := lines ++
      ["Redditor since " +:+ timestamp +:+ " (" +:+ Py.str link_karma
       +:+ " link karma, " +:+ Py.str comment_karma +:+ " comment karma)";
       ""] in
    let lines := lines ++ ["# Submissions"] in
    let lines := lines ++ [""] in
    let submissions := submissions_new r ITEM_LIMIT in
    lines ←
      (if Py.truth submissions
       then for_each extend_submission lines (iterate submissions)
       else Ok ((lines ++ ["User has no submissions."]) ++ [""]));
    let lines := lines ++ ["# Comments"] in
    let lines := lines ++ [""] in
    let comments := comments_new r ITEM_LIMIT in
    if Py.truth comments
    then for_each (extend_comment false) lines (iterate comments)
    else Ok ((lines ++ ["User has no comments."]) ++ [""])
  end.

(** The renderers the live router dispatches to. *)
Definition pages : Pages :=
  {| display_comment_page := display_comment;
     display_submission_page := display_submission;
     display_subreddit_page := display_subreddit;
     display_redditor_page := display_redditor |}.

End Gateway.

(** ** A reference instance of the library

    Executable versions of the imported functions, for running the
    embedding on concrete requests.  They follow CPython's [urllib.parse]
    and [datetime] on the inputs used below: ASCII URLs without IPv6
    literals, and timestamps from 1970 on.  No general theorem depends on
    them. *)

Module Ref.

Definition hexval (c : ascii) : option N :=
  let n := Py.ord c in
  if ((48 <=? n) && (n <=? 57))%N then Some (n - 48)%N
  else if ((65 <=? n) && (n <=? 70))%N then Some (n - 55)%N
  else if ((97 <=? n) && (n <=? 102))%N then Some (n - 87)%N
  else None.

(** [unquote]: every [%XX] with two hex digits is replaced by the
    character it encodes; a [%] not followed by two hex digits stays.
    CPython decodes the bytes as UTF-8; escapes of bytes from 0x80 on,
    whose decoding is outside the 8-bit characters of the embedding, are
    left as written. *)
Fixpoint unquote (s : string) : string :=
  match s with
  | EmptyString => EmptyString
  | String c s' =>
      if Ascii.eqb c "%" then
        match s' with
        | String a (String b rest) =>
            match hexval a, hexval b with
            | Some h, Some l =>
                if (16 * h + l <? 128)%N
                then String (Py.chr (16 * h + l)) (unquote rest)
                else String c (unquote s')
            | _, _ => String c (unquote s')
            end
        | _ => String c (unquote s')
        end
      else String c (unquote s')
  end.

Definition isalpha (c : ascii) : bool :=
  let n := Py.ord c in
  ((65 <=? n) && (n <=? 90) || (97 <=? n) && (n <=? 122))%N.
Definition isdigit (c : ascii) : bool :=
  let n := Py.ord c in ((48 <=? n) && (n <=? 57))%N.
Definition scheme_char (c : ascii) : bool :=
  isalpha c || isdigit c || Py.char_in c "+-.".
Definition lower (c : ascii) : ascii :=
  let n := Py.ord c in
  if ((65 <=? n) && (n <=? 90))%N then Py.chr (n + 32) else c.

Fixpoint forallb_str (p : ascii -> bool) (s : string) : bool :=
  match s with
  | EmptyString => true
  | String c r => p c && forallb_str p r
  end.
Fixpoint map_str (f : ascii -> ascii) (s : string) : string :=
  match s with
  | EmptyString => EmptyString
  | String c r => String (f c) (map_str f r)
  end.
Fixpoint filter_str (p : ascii -> bool) (s : string) : string :=
  match s with
  | EmptyString => EmptyString
  | String c r => if p c then String c (filter_str p r) else filter_str p r
  end.

(** [s.partition(c)] for any of the characters in [seps]: the text before
    the first separator, and the text from the separator on, if any. *)
Fixpoint break_at (seps : string) (s : string) : string * option string :=
  match s with
  | EmptyString => (EmptyString, None)
  | String c r =>
      if Py.char_in c seps then (EmptyString, Some s)
      else let '(a, b) := break_at seps r in (String c a, b)
  end.

Definition tail_str (s : string) : string :=
  match s with EmptyString => EmptyString | String _ r => r end.

(** [url.split(c, 1)] when [c] occurs in [url]. *)
Definition split_once (c : string) (s : string) : string * string :=
  match break_at c s with
  | (a, Some b) => (a, tail_str b)
  | (a, None) => (a, EmptyString)
  end.

Definition uses_params : list string :=
  [""; "ftp"; "hdl"; "prospero"; "http"; "imap"; "https"; "shttp"; "rtsp";
   "rtspu"; "sip"; "sips"; "mms"; "sftp"; "tel"].

(** [_splitparams(url)]: the path without the parameters of its last
    segment. *)
Definition drop_params (url : string) : string :=
  let segs := Py.split "/" url in
  match last segs with
  | Some seg =>
      Py.join "/" (removelast segs ++ [fst (break_at ";" seg)])
  | None => url
  end.

Definition urlparse (url : string) : option Url.t :=
  let url := Py.lstrip_by (fun c => (Py.ord c <=? 32)%N) url in
  let url :=
    filter_str (fun c => negb (Py.char_in c
      (String (Py.chr 9) (String (Py.chr 10) (String (Py.chr 13) ""))))) url in
  let '(scheme, url) :=
    match break_at ":" url with
    | (String c0 pre, Some rest) =>
        if isalpha c0 && forallb_str scheme_char pre
        then (map_str lower (String c0 pre), tail_str rest)
        else (EmptyString, url)
    | _ => (EmptyString, url)
    end in
  let '(netloc, url) :=
    if Py.startswith "//" url then
      let '(n, rest) := break_at "/?#" (tail_str (tail_str url)) in
      (n, default EmptyString rest)
    else (EmptyString, url) in
  if xorb (Py.char_in "[" netloc) (Py.char_in "]" netloc)
  then None  (* ValueError: Invalid IPv6 URL *)
  else
    let url := fst (split_once "#" url) in
    let '(url, query) := split_once "?" url in
    let url :=
      if bool_decide (scheme ∈ uses_params) then drop_params url else url in
    Some (Url.Parsed scheme netloc url query).

(** Days since 1970-01-01 to (year, month, day), proleptic Gregorian. *)
Definition civil_from_days (z : Z) : Z * Z * Z :=
  let z := (z + 719468)%Z in
  let era := (z / 146097)%Z in
  let doe := (z - era * 146097)%Z in
  let yoe := ((doe - doe / 1460 + doe / 36524 - doe / 146096) / 365)%Z in
  let y := (yoe + era * 400)%Z in
  let doy := (doe - (365 * yoe + yoe / 4 - yoe / 100))%Z in
  let mp := ((5 * doy + 2) / 153)%Z in
  let d := (doy - (153 * mp + 2) / 5 + 1)%Z in
  let m := (if (mp <? 10)%Z then mp + 3 else mp - 9)%Z in
  ((if (m <=? 2)%Z then y + 1 else y)%Z, m, d).

Definition pad (width : nat) (n : Z) : string :=
  let s := Py.str n in
  String.string_of_list_ascii (replicate (width - String.length s) "0"%char)
  +:+ s.

Definition directive (t : Z) (c : ascii) : string :=
  let '(y, m, d) := civil_from_days (t / 86400) in
  let secs := (t mod 86400)%Z in
  if Ascii.eqb c "d" then pad 2 d
  else if Ascii.eqb c "m" then pad 2 m
  else if Ascii.eqb c "Y" then pad 4 y
  else if Ascii.eqb c "H" then pad 2 (secs / 3600)
  else if Ascii.eqb c "M" then pad 2 (secs mod 3600 / 60)
  else String "%" (String c EmptyString).

(** [strftime] for the directives of [DATE_FMT] and [DATETIME_FMT]. *)
Fixpoint strftime (t : Z) (fmt : string) : string :=
  match fmt with
  | EmptyString => EmptyString
  | String c r =>
      if Ascii.eqb c "%" then
        match r with
        | String d r' => directive t d +:+ strftime t r'
        | EmptyString => String c EmptyString
        end
      else String c (strftime t r)
  end.

(** [md2gemini] leaves a single paragraph of plain words as it is; the
    instance is run on such texts only. *)
Definition md2gemini (md : string) : string := md.

End Ref.

Definition reflib : PyLib :=
  {| unquote := Ref.unquote;
     urlparse := Ref.urlparse;
     md2gemini := Ref.md2gemini;
     utc_strftime := Ref.strftime |}.

Definition refenv : Env :=
  {| BASE_URL := "gemini://remini.example/";
     LANDING_PAGE := None;
     readlines _ := None |}.

(** A small Reddit to run the formatters on. *)
Module World.

Definition hello : Submission :=
  {| s_title := "Hello";
     s_url := "https://example.com/a";
     s_author := Some "alice";
     s_created_utc := 1234567890;
     s_edited := false;
     s_score := 7;
     s_permalink := "/r/test/comments/abc/hello/";
     s_num_comments := 26;
     s_selftext := "" |}.

Definition nice : Comment :=
  mkComment (Some "bob") 1234567890 false "nice"
    "/r/test/comments/abc/hello/t5abc/" 3 "t3_abc" "Hello" [].

(** A reply to the comment [t5abc]. *)
Definition reply : Comment :=
  mkComment None 1234567900 true "indeed"
    "/r/test/comments/abc/hello/k2/" 1 "t1_t5abc" "Hello" [].

Definition thread : Comment :=
  mkComment (Some "bob") 1234567890 false "nice"
    "/r/test/comments/abc/hello/t5abc/" 3 "t3_abc" "Hello"
    (replicate 26 reply).

Definition test : Subreddit :=
  {| sr_display_name := "test";
     sr_created_utc := 1200000000;
     sr_subscribers := 42;
     sr_hot := replicate 11 hello;
     sr_top := replicate 30 hello;
     sr_new := [];
     sr_controversial := [hello] |}.

Definition quiet : Subreddit :=
  {| sr_display_name := "quiet";
     sr_created_utc := 1200000000;
     sr_subscribers := 0;
     sr_hot := [];
     sr_top := [];
     sr_new := [];
     sr_controversial := [] |}.

Definition someuser : Redditor :=
  {| r_is_suspended := Some true;
     r_created_utc := None;
     r_link_karma := None;
     r_comment_karma := None;
     r_submissions_new := [];
     r_comments_new := [] |}.

Definition lurker : Redditor :=
  {| r_is_suspended := None;
     r_created_utc := Some 1200000000%Z;
     r_link_karma := Some 1%Z;
     r_comment_karma := Some 0%Z;
     r_submissions_new := [];
     r_comments_new := [] |}.

Definition reddit : Reddit :=
  {| subreddit name :=
       if bool_decide (name = "test") then Some test
       else if bool_decide (name = "quiet") then Some quiet
       else None;
     submission id :=
       if bool_decide (id = "abc") then Some (hello, replicate 26 nice)
       else None;
     comment id :=
       if bool_decide (id = "t5abc") then Some thread
       else if bool_decide (id = "k2") then Some reply
       else None;
     redditor name :=
       if bool_decide (name = "someuser") then Some someuser
       else if bool_decide (name = "lurker") then Some lurker
       else None |}.

End World.

(** A second set of answers of the Reddit API: a subreddit whose listing
    holds a link into Reddit that the router cannot read, and accounts with
    content and with missing profile attributes. *)
Module Remote.

(** A submission that links to [https://www.reddit.com/%2F]. *)
Definition escaped : Submission :=
  {| s_title := "Slash";
     s_url := "https://www.reddit.com/%2F";
     s_author := Some "dave";
     s_created_utc := 1234567890;
     s_edited := false;
     s_score := 2;
     s_permalink := "/r/links/comments/x1/slash/";
     s_num_comments := 0;
     s_selftext := "" |}.

Definition links : Subreddit :=
  {| sr_display_name := "links";
     sr_created_utc := 1200000000;
     sr_subscribers := 5;
     sr_hot := [escaped];
     sr_top := [];
     sr_new := [];
     sr_controversial := [] |}.

(** A comment with two replies. *)
Definition answer : Comment :=
  mkComment (Some "carol") 1234567890 false "I agree"
    "/r/test/comments/abc/hello/k9/" 5 "t3_abc" "Hello"
    [World.reply; World.reply].

Definition poster : Redditor :=
  {| r_is_suspended := Some false;
     r_created_utc := Some 1200000000%Z;
     r_link_karma := Some 10%Z;
     r_comment_karma := Some 20%Z;
     r_submissions_new := [World.hello];
     r_comments_new := [answer] |}.

(** An account without [created_utc]. *)
Definition ghost : Redditor :=
  {| r_is_suspended := None;
     r_created_utc := None;
     r_link_karma := Some 1%Z;
     r_comment_karma := Some 1%Z;
     r_submissions_new := [World.hello];
     r_comments_new := [] |}.

(** An account without [link_karma]. *)
Definition nokarma : Redditor :=
  {| r_is_suspended := Some false;
     r_created_utc := Some 1200000000%Z;
     r_link_karma := None;
     r_comment_karma := Some 1%Z;
     r_submissions_new := [];
     r_comments_new := [answer] |}.

Definition reddit : Reddit :=
  {| subreddit name :=
       if bool_decide (name = "links") then Some links else None;
     submission id := None;
     comment id := None;
     redditor name :=
       if bool_decide (name = "poster") then Some poster
       else if bool_decide (name = "ghost") then Some ghost
       else if bool_decide (name = "nokarma") then Some nokarma
       else None |}.

End Remote.

(** ** The routing table of the design document

    The request shapes of the router, as the design document lists them.
    [select] names the branch a trimmed path falls in, and [respond] is
    what live dispatch does in that branch. *)

Inductive branch :=
  | Landing
  | CommentThread (comment_id : string)
  | SubmissionThread (submission_id : string)
  | SubredditListing (name : string)
  | SubredditQuery
  | RedditorProfile (name : string)
  | RedditorQuery
  | BadShape
  | UnknownCommand.

Definition is_bad_request (b : branch) : bool :=
  match b with
  | BadShape | UnknownCommand => true
  | _ => false
  end.

Definition select_r (tokens : list string) : branch :=
  match tokens with
  | [] => SubredditQuery
  | [name] => SubredditListing name
  | _ :: c :: rest =>
      if bool_decide (c = "comments") then
        match rest with
        | [] => BadShape
        | [id] | [id; _] => SubmissionThread id
        | _ :: _ :: comment_id :: _ => CommentThread comment_id
        end
      else BadShape
  end.

Definition select_u (tokens : list string) : branch :=
  match tokens with
  | [] => RedditorQuery
  | [name] => RedditorProfile name
  | _ => BadShape
  end.

Section Routes.
Context {lib : PyLib} {env : Env}.
Variable pages : Pages.

(** [path] is the request path as received. *)
Definition select (path : string) : result branch :=
  let path := Py.strip "/" (Py.strip_ws path) in
  if negb (Py.truth path) then Ok Landing
  else
    tokens ← request_tokens path;
    match tokens with
    | [] => Raise IndexError
    | cmd :: rest =>
        if bool_decide (cmd = "r") then Ok (select_r rest)
        else if bool_decide (cmd = "u") then Ok (select_u rest)
        else Ok UnknownCommand
    end.

Definition render (page : result (list string)) : result retval :=
  lines ← page; Ok (RBytes (ok lines true)).

Definition respond (path query : string) (b : branch) : result retval :=
  let path := Py.strip "/" (Py.strip_ws path) in
  match b with
  | Landing =>
      match LANDING_PAGE with
      | Some (String _ _ as f) =>
          lines ← external (readlines f); Ok (RBytes (ok lines false))
      | _ => Ok (RBytes (ok [NO_LANDING_PAGE] true))
      end
  | CommentThread comment_id => render (display_comment_page pages comment_id)
  | SubmissionThread submission_id =>
      render (display_submission_page pages submission_id)
  | SubredditListing name =>
      render (display_subreddit_page pages name "hot" 10%Z)
  | SubredditQuery =>
      match query with
      | EmptyString => Ok (RBytes (get_input "Enter subreddit name:"))
      | _ => Ok (RBytes (redirect (BASE_URL +:+ "r/" +:+ query) true))
      end
  | RedditorProfile name => render (display_redditor_page pages name)
  | RedditorQuery =>
      match query with
      | EmptyString => Ok (RBytes (get_input "Enter Redditor name:"))
      | _ => Ok (RBytes (redirect (BASE_URL +:+ "u/" +:+ query) true))
      end
  | BadShape =>
      Ok (RBytes (bad_request ("Request invalid or not supported: " +:+ path)))
  | UnknownCommand =>
      Ok (RBytes (bad_request ("Couldn't parse path " +:+ QUOTE +:+ path
                                +:+ QUOTE +:+ ".")))
  end.

End Routes.

(** ** The tokenization rule of the design document

    Percent-decode the path, split on [/], drop a leading empty token, drop
    a trailing empty token. *)

Definition drop_leading_empty (tokens : list string) : list string :=
  match tokens with
  | EmptyString :: rest => rest
  | _ => tokens
  end.

Definition drop_trailing_empty (tokens : list string) : list string :=
  match last tokens with
  | Some EmptyString => removelast tokens
  | _ => tokens
  end.

Definition tokenize `{PyLib} (path : string) : list string :=
  drop_trailing_empty (drop_leading_empty (Py.split "/" (unquote path))).

(** ** Page layouts

    The fixed lines of the pages, as the formatters write them. *)


(** The remote listing [display_subreddit] reads for a sort key. *)
Definition listing_of (sr : Subreddit) (sortby : string)
    : option (list Submission) :=
  if bool_decide (sortby = "hot") then Some (sr_hot sr)
  else if bool_decide (sortby = "top") then Some (sr_top sr)
  else if bool_decide (sortby = "new") then Some (sr_new sr)
  else if bool_decide (sortby = "controversial") then Some (sr_controversial sr)
  else None.


Definition NOTHING_HERE : string := "There's nothing here!".

Section Layouts.
Context {lib : PyLib}.

Definition subreddit_header (sr : Subreddit) : list string :=
  ["# Subreddit: " +:+ sr_display_name sr;
   "Created on " +:+ utc_strftime (sr_created_utc sr) DATE_FMT +:+ ". "
   +:+ Py.str (sr_subscribers sr) +:+ " subscribers.";
   "";
   "## Submissions"].

(** The timestamp of a submission or a comment, with its edit mark. *)
Definition stamp (t : Z) (was_edited : bool) : string :=
  if was_edited then utc_strftime t DATETIME_FMT +:+ "*"
  else utc_strftime t DATETIME_FMT.

(** The line with the total and the shown number of items. *)
Definition counts_line (score : Z) (total shown : nat) (what : string)
    : string :=
  Py.str score +:+ " upvotes, " +:+ Py.str (Z.of_nat total) +:+ what
  +:+ Py.str (Z.of_nat shown) +:+ ")".

Definition submission_header (sub : Submission) (total shown : nat)
    : list string :=
  ["# " +:+ s_title sub;
   "=> " +:+ s_url sub;
   "created by " +:+ default "[deleted]" (s_author sub) +:+ " on "
   +:+ stamp (s_created_utc sub) (s_edited sub);
   counts_line (s_score sub) total shown " top-level comments (showing ";
   ""].

Definition comment_header (c : Comment) (total shown : nat)
    (submission_url : string) : list string :=
  ["# Comment by " +:+ default "[deleted]" (c_author c) +:+ " on "
   +:+ stamp (c_created_utc c) (c_edited c);
   counts_line (c_score c) total shown " direct replies (showing ";
   "=> " +:+ submission_url +:+ " View submission: " +:+ c_submission_title c].

Definition redditor_header (name : string) (created link_karma comment_karma : Z)
    : list string :=
  ["# Redditor: " +:+ name;
   "Redditor since " +:+ utc_strftime created DATE_FMT +:+ " ("
   +:+ Py.str link_karma +:+ " link karma, " +:+ Py.str comment_karma
   +:+ " comment karma)";
   ""].

End Layouts.

(** ** The markdown adapter, line by line

    What the loop of [parse_markdown] writes in place of one line of the
    converter's output. *)

Section Lines.
Context {lib : PyLib} {env : Env}.

Definition rewrite_line (line : string) : result string :=
  if Py.startswith "#" line || Py.startswith "##" line then Ok ("#" +:+ line)
  else if Py.startswith "=> " line then
    let tokens := Py.split " " line in
    t1 ← Py.getitem tokens 1;
    u ← parse_reddit_url t1;
    tokens ← Py.setitem tokens 1 u;
    Ok (Py.join " " tokens)
  else Ok line.

End Lines.

(** ** The listing loops

    [for x in xs: lines.extend(f(x)); lines.append('')] appends to [lines]
    one block per item: its summary and an empty line. *)

Definition blocks (items : list (list string)) : list string :=
  concat (map (fun item => item ++ [""]) items).

Definition extend_with {A} (f : A -> result (list string))
    (lines : list string) (x : A) : result (list string) :=
  summary ← f x; Ok ((lines ++ summary) ++ [""]).

(** ** The SCGI entry point

    [ReminiHandler.produce]: what is written to the client for the
    [PATH_INFO] and [QUERY_STRING] entries of the request environment, each
    of which may be missing ([env.get] gives [None]).  [None.strip()] raises
    [AttributeError]; a missing query is false wherever the router tests it
    and is never formatted, like the empty string.  Every exception is
    caught and answered with the generic bad-request response. *)

Section EntryPoint.
Context {lib : PyLib} {env : Env} {reddit : Reddit}.

Definition produce (path query : option string) : bytes :=
  let attempt :=
    match path with
    | None => Raise (AttributeError "strip")
    | Some path =>
        r ← handle_request pages path (default "" query) false;
        match r with
        | RBytes b => Ok b
        | RBool _ => Raise External  (* output.write(bool): TypeError *)
        end
    end in
  match attempt with
  | Ok b => b
  | Raise _ => bad_request GENERIC_ERR_MSG
  end.

End EntryPoint.

(** ** Module initialisation

    Lines 22-63 of the source, run when the module is imported: the two
    required environment variables, the log file, the landing page, the
    three lines of the PRAW file and the [praw.Reddit] handle. *)

Inductive startup_error :=
  | MissingVariable      (* RuntimeError: REMINI_BASE_URL or REMINI_PRAW_FILE *)
  | CannotOpenLog        (* logging.basicConfig(filename=LOG_FILE) raises *)
  | CannotOpen           (* open(PRAW_FILE) or f.readlines() raises *)
  | WrongLineCount       (* ValueError of the three-way unpacking *)
  | CannotCreateClient.  (* praw.Reddit(...) raises *)

Record Settings := {
  st_BASE_URL : string;
  st_PRAW_FILE : string;
  st_LOG_FILE : option string;
  st_LANDING_PAGE : option string;
  st_CLIENT_ID : string;
  st_CLIENT_SECRET : string;
  st_USER_AGENT : string
}.

(** What the top level of the module calls outside itself; each call may
    raise ([None]).  [Handle] is the type of the [praw.Reddit] object. *)
Record Host (Handle : Type) := {
  (** [logging.basicConfig(filename=name)], which opens the log file *)
  basicConfig : string -> option unit;
  (** [open(name)] followed by [f.readlines()] *)
  open_readlines : string -> option (list string);
  (** [praw.Reddit(user_agent=.., client_id=.., client_secret=..)] *)
  praw_Reddit : string -> string -> string -> option Handle
}.
Arguments basicConfig {Handle} h filename.
Arguments open_readlines {Handle} h name.
Arguments praw_Reddit {Handle} h user_agent client_id client_secret.

Definition startup {Handle} (environ : gmap string string)
    (host : Host Handle) : startup_error + (Settings * Handle) :=
  match environ !! "REMINI_BASE_URL", environ !! "REMINI_PRAW_FILE" with
  | Some base_url, Some praw_file =>
      let log_file := environ !! "REMINI_LOG_FILE" in
      match (match log_file with
             | Some name =>   (* if LOG_FILE: *)
                 if Py.truth name then basicConfig host name else Some ()
             | None => Some ()
             end) with
      | None => inl CannotOpenLog
      | Some _ =>
          let landing_page := environ !! "REMINI_LANDING_PAGE" in
          match open_readlines host praw_file with
          | None => inl CannotOpen
          | Some lines =>
              match map Py.strip_ws lines with
              | [client_id; client_secret; user_agent] =>
                  match praw_Reddit host user_agent client_id client_secret with
                  | None => inl CannotCreateClient
                  | Some reddit =>
                      inr ({| st_BASE_URL := base_url;
                              st_PRAW_FILE := praw_file;
                              st_LOG_FILE := log_file;
                              st_LANDING_PAGE := landing_page;
                              st_CLIENT_ID := client_id;
                              st_CLIENT_SECRET := client_secret;
                              st_USER_AGENT := user_agent |}, reddit)
                  end
              | _ => inl WrongLineCount
              end
          end
      end
  | _, _ => inl MissingVariable
  end.

(** The step of lines 31-33 alone. *)
Definition log_step {Handle} (environ : gmap string string)
    (host : Host Handle) : option unit :=
  match environ !! "REMINI_LOG_FILE" with
  | Some name => if Py.truth name then basicConfig host name else Some ()
  | None => Some ()
  end.

(** [REMINI_LOG_FILE] names a file that cannot be opened for logging. *)
Definition log_fails {Handle} (environ : gmap string string)
    (host : Host Handle) : Prop :=
  exists name, environ !! "REMINI_LOG_FILE" = Some name
               /\ name <> "" /\ basicConfig host name = None.

(** The configuration the running program reads. *)
Definition settings_env {Handle} (st : Settings) (host : Host Handle) : Env :=
  {| BASE_URL := st_BASE_URL st;
     LANDING_PAGE := st_LANDING_PAGE st;
     readlines := open_readlines host |}.

(** An environment and a host to start the program with: one log file can
    be opened, the PRAW file has its three lines, and the handle records
    the arguments [praw.Reddit] was given. *)
Definition sample_environ : gmap string string :=
  <["REMINI_BASE_URL" := "gemini://remini.example/"]>
    (<["REMINI_PRAW_FILE" := "praw.txt"]> ∅).

Definition sample_files (name : string) : option (list string) :=
  if bool_decide (name = "praw.txt")
  then Some ["  id" +:+ LF; "secret" +:+ LF; "agent 1.0 " +:+ LF]
  else None.

Record Credentials := {
  cr_user_agent : string;
  cr_client_id : string;
  cr_client_secret : string
}.

Definition sample_host : Host Credentials :=
  {| basicConfig name :=
       if bool_decide (name = "remini.log") then Some () else None;
     open_readlines := sample_files;
     praw_Reddit user_agent client_id client_secret :=
       Some {| cr_user_agent := user_agent;
               cr_client_id := client_id;
               cr_client_secret := client_secret |} |}.

(** The host test of [parse_reddit_url]: the last two labels of the host
    are one of [REDDIT_DOMAINS]. *)
Definition is_reddit_domain (netloc : string) : bool :=
  existsb (fun d => bool_decide (d = Py.last_two (Py.split "." netloc)))
          REDDIT_DOMAINS.

(** ** Status codes *)

(** The first three bytes of a response: the two digits of its status and
    the space after them. *)
Definition status (response : bytes) : bytes := take 3 response.

Definition STATUS_SUCCESS : bytes := Py.encode "20 ".
Definition STATUS_REDIRECT : bytes := Py.encode "31 ".
Definition STATUS_INPUT : bytes := Py.encode "10 ".
Definition STATUS_BAD_REQUEST : bytes := Py.encode "59 ".

(** [c not in s] for every character of [s]. *)
Fixpoint lacks (c : ascii) (s : string) : bool :=
  match s with
  | EmptyString => true
  | String d rest => negb (Ascii.eqb d c) && lacks c rest
  end.

(** * Properties *)

Example unquote_ex :
  Ref.unquote "%2F%2Fa" = "//a" /\ Ref.unquote "a%20b%zz%4" = "a b%zz%4".
Proof. split; reflexivity. Qed.
Example urlparse_ex :
  Ref.urlparse "https://www.Reddit.com/r/test/comments/abc/?x=1#top"
  = Some (Url.Parsed "https" "www.Reddit.com" "/r/test/comments/abc/" "x=1").
Proof. reflexivity. Qed.
Example urlparse_rel : Ref.urlparse "%2F" = Some (Url.Parsed "" "" "%2F" "").
Proof. reflexivity. Qed.
Example urlparse_rel2 :
  Ref.urlparse "/r/test;x/a;b?q" = Some (Url.Parsed "" "" "/r/test;x/a" "q").
Proof. reflexivity. Qed.
Example strftime_ex :
  Ref.strftime 1234567890 DATETIME_FMT = "13/02/2009 at 23:31 UTC"
  /\ Ref.strftime 951782400 DATE_FMT = "29/02/2000".
Proof. split; reflexivity. Qed.

(** ** Results *)

Lemma bind_Ok {A B} (m : result A) (f : A -> result B) b :
  m ≫= f = Ok b <-> exists a, m = Ok a /\ f a = Ok b.
Proof.
  destruct m as [a|e]; simpl; split.
  - intros H. exists a. split; [reflexivity|exact H].
  - intros (a' & [= <-] & H). exact H.
  - discriminate.
  - intros (a' & [=] & _).
Qed.


(** ** Check-only mode and live dispatch *)

Section RouterFacts.
Context {lib : PyLib} {env : Env}.
Implicit Types (pg : Pages) (tokens : list string).

Lemma bool_decide_Some (a b : string) :
  bool_decide (Some a = Some b) = bool_decide (a = b).
Proof. apply bool_decide_ext. split; congruence. Qed.

Lemma handle_r_check pg tokens path query :
  handle_r pg tokens path query true
  = Ok (RBool (negb (is_bad_request (select_r tokens)))).
Proof.
  destruct tokens as [|t0 [|t1 [|t2 [|t3 [|t4 rest]]]]]; try reflexivity;
    unfold handle_r, select_r; simpl; rewrite ?bool_decide_Some;
    destruct (bool_decide (t1 = "comments")); reflexivity.
Qed.

Lemma handle_r_live pg tokens path query :
  handle_r pg tokens (Py.strip "/" (Py.strip_ws path)) query false
  = respond pg path query (select_r tokens).
Proof.
  destruct tokens as [|t0 [|t1 [|t2 [|t3 [|t4 rest]]]]];
    unfold handle_r, select_r, respond, render; simpl;
    rewrite ?bool_decide_Some;
    try destruct (bool_decide (t1 = "comments")); simpl;
    try reflexivity.
  destruct query; reflexivity.
Qed.

Lemma handle_u_check pg tokens path query :
  handle_u pg tokens path query true
  = Ok (RBool (negb (is_bad_request (select_u tokens)))).
Proof. destruct tokens as [|t0 [|t1 rest]]; reflexivity. Qed.

Lemma handle_u_live pg tokens path query :
  handle_u pg tokens (Py.strip "/" (Py.strip_ws path)) query false
  = respond pg path query (select_u tokens).
Proof.
  destruct tokens as [|t0 [|t1 rest]]; try reflexivity.
  unfold handle_u, respond; simpl. destruct query; reflexivity.
Qed.

Lemma handle_request_check pg path query :
  handle_request pg path query true
  = b ← select path; Ok (RBool (negb (is_bad_request b))).
Proof.
  unfold handle_request, select.
  destruct (negb (Py.truth (Py.strip "/" (Py.strip_ws path)))); [reflexivity|].
  destruct (request_tokens _) as [[|cmd rest]|e]; simpl; try reflexivity.
  rewrite drop_0.
  destruct (bool_decide (cmd = "r")); simpl; [apply handle_r_check|].
  destruct (bool_decide (cmd = "u")); simpl; [apply handle_u_check|].
  reflexivity.
Qed.

Lemma handle_request_live pg path query :
  handle_request pg path query false = select path ≫= respond pg path query.
Proof.
  unfold handle_request, select.
  destruct (negb (Py.truth (Py.strip "/" (Py.strip_ws path)))).
  { simpl. destruct LANDING_PAGE as [[|c f]|]; reflexivity. }
  destruct (request_tokens _) as [[|cmd rest]|e]; simpl; try reflexivity.
  rewrite drop_0.
  destruct (bool_decide (cmd = "r")); simpl; [apply handle_r_live|].
  destruct (bool_decide (cmd = "u")); simpl; [apply handle_u_live|].
  reflexivity.
Qed.

(** In check-only mode nothing is rendered. *)
Lemma handle_request_check_pages pg pg' path query :
  handle_request pg path query true = handle_request pg' path query true.
Proof. now rewrite !handle_request_check. Qed.

End RouterFacts.

Section Agreement.
Context {lib : PyLib} {env : Env}.

Lemma ok_not_bad_request lines j msg : ok lines j <> bad_request msg.
Proof. unfold ok, bad_request. simpl. discriminate. Qed.

Lemma get_input_not_bad_request m msg : get_input m <> bad_request msg.
Proof. unfold get_input, bad_request. simpl. discriminate. Qed.

Lemma redirect_not_bad_request url perm msg : redirect url perm <> bad_request msg.
Proof. unfold redirect, bad_request. destruct perm; simpl; discriminate. Qed.

Lemma RBytes_neq (b b' : bytes) : b <> b' -> Ok (RBytes b) <> Ok (RBytes b').
Proof. congruence. Qed.

Lemma render_not_bad_request page msg :
  render page <> Ok (RBytes (bad_request msg)).
Proof.
  destruct page as [lines|e]; [|discriminate].
  apply RBytes_neq, ok_not_bad_request.
Qed.

Lemma respond_bad_request pg path query b :
  is_bad_request b = true
  <-> exists msg, respond pg path query b = Ok (RBytes (bad_request msg)).
Proof.
  split.
  - destruct b; try discriminate; intros _; simpl; eauto.
  - intros [msg H]. destruct b; try reflexivity; exfalso; revert H;
      unfold respond; try apply render_not_bad_request.
    + destruct LANDING_PAGE as [[|c f]|];
        try apply RBytes_neq, ok_not_bad_request.
      destruct (readlines _); simpl; [|discriminate].
      apply RBytes_neq, ok_not_bad_request.
    + destruct query; apply RBytes_neq;
        [apply get_input_not_bad_request|apply redirect_not_bad_request].
    + destruct query; apply RBytes_neq;
        [apply get_input_not_bad_request|apply redirect_not_bad_request].
Qed.

(** C1.  Check-only mode answers [True] exactly when live dispatch of the
    same path and query selects a branch other than the two bad-request
    branches.  Live dispatch is [respond] on the branch [select] names;
    the bad-request branches are those in which it answers with a
    bad-request response. *)
Theorem check_only_agrees_with_live (pg : Pages) (path query : string) :
  handle_request pg path query false = select path ≫= respond pg path query
  /\ (handle_request pg path query true = Ok (RBool true)
      <-> exists b, select path = Ok b /\ is_bad_request b = false)
  /\ (forall b, is_bad_request b = true
      <-> exists msg, respond pg path query b = Ok (RBytes (bad_request msg))).
Proof.
  split; [apply handle_request_live|].
  split; [|intros b; apply respond_bad_request].
  rewrite handle_request_check, bind_Ok. split.
  - intros (b & Hb & [= H]). exists b. split; [exact Hb|].
    now destruct (is_bad_request b).
  - intros (b & Hb & Hbad). exists b. split; [exact Hb|]. now rewrite Hbad.
Qed.

End Agreement.

(** ** Strings *)

#[local] Arguments String.append !_ _ / : simpl nomatch.

Section StringFacts.
Implicit Types (s r : string) (c sep : ascii) (p : ascii -> bool).

Lemma append_nil_r s : s +:+ "" = s.
Proof. induction s as [|c s IH]; simpl; [reflexivity|now rewrite IH]. Qed.

Lemma append_assoc s1 s2 s3 : (s1 +:+ s2) +:+ s3 = s1 +:+ (s2 +:+ s3).
Proof. induction s1 as [|c s1 IH]; simpl; [reflexivity|now rewrite IH]. Qed.

Lemma split_cons sep s : exists t ts, Py.split sep s = t :: ts.
Proof.
  induction s as [|c s (t & ts & IH)]; simpl; [eauto|].
  destruct (Ascii.eqb c sep); [eauto|]. rewrite IH. eauto.
Qed.

Lemma split_single_empty sep s : Py.split sep s = [""] -> s = "".
Proof.
  destruct s as [|c s]; [reflexivity|]. simpl.
  destruct (split_cons sep s) as (t & ts & E). rewrite E.
  destruct (Ascii.eqb c sep); discriminate.
Qed.

Lemma split_snoc sep s :
  Py.split sep (s +:+ String sep "") = Py.split sep s ++ [""].
Proof.
  induction s as [|c s IH]; simpl.
  - now rewrite Ascii.eqb_refl.
  - rewrite IH. destruct (Ascii.eqb c sep); [reflexivity|].
    destruct (split_cons sep s) as (t & ts & E). now rewrite E.
Qed.

Lemma split_snoc_inv sep s l :
  Py.split sep s = l ++ [""] -> l <> [] ->
  exists s', s = s' +:+ String sep "" /\ Py.split sep s' = l.
Proof.
  revert l. induction s as [|c s IH]; intros l E Hl.
  - destruct l as [|x [|y l]]; [congruence|discriminate..].
  - simpl in E. destruct (Ascii.eqb_spec c sep) as [->|Hc].
    + destruct l as [|x l]; [congruence|]. injection E as <- E.
      destruct l as [|y l].
      * apply split_single_empty in E as ->. exists "". split; reflexivity.
      * destruct (IH _ E) as (s' & -> & E'); [discriminate|].
        exists (String sep s'). split; [reflexivity|].
        simpl. now rewrite Ascii.eqb_refl, E'.
    + destruct (split_cons sep s) as (t & ts & Es). rewrite Es in E.
      destruct l as [|x l]; [congruence|]. injection E as <- ->.
      destruct (IH (t :: l)) as (s' & -> & E'); [exact Es|discriminate|].
      exists (String c s'). split; [reflexivity|].
      simpl. apply Ascii.eqb_neq in Hc. now rewrite Hc, E'.
Qed.

Lemma split_head_sep sep s t ts :
  Py.split sep s = "" :: t :: ts -> exists r, s = String sep r /\ Py.split sep r = t :: ts.
Proof.
  destruct s as [|c s]; simpl; [discriminate|].
  destruct (Ascii.eqb_spec c sep) as [->|Hc].
  - intros [= E]. eauto.
  - destruct (split_cons sep s) as (t' & ts' & E). rewrite E. discriminate.
Qed.

Lemma lstrip_by_head p s c r : Py.lstrip_by p s = String c r -> p c = false.
Proof.
  induction s as [|d s IH]; simpl; [discriminate|].
  destruct (p d) eqn:Hd; [exact IH|]. now intros [= <- _].
Qed.

Lemma lstrip_by_suffix p s : exists pre, s = pre +:+ Py.lstrip_by p s.
Proof.
  induction s as [|d s (pre & IH)]; simpl; [now exists ""|].
  destruct (p d).
  - exists (String d pre). simpl. now rewrite <- IH.
  - now exists "".
Qed.

Lemma rstrip_by_last p s r c :
  Py.rstrip_by p s = r +:+ String c "" -> p c = false.
Proof.
  revert r. induction s as [|d s IH]; intros r; simpl.
  - destruct r; discriminate.
  - destruct (Py.rstrip_by p s) as [|e t] eqn:E.
    + destruct (p d) eqn:Hd.
      * destruct r; discriminate.
      * destruct r as [|x [|y r]]; simpl; try discriminate.
        now intros [= <-].
    + destruct r as [|x r]; simpl; [discriminate|].
      intros [= _ E']. exact (IH _ E').
Qed.

Lemma strip_head chars s c r : Py.strip chars s = String c r -> Py.char_in c chars = false.
Proof. apply lstrip_by_head. Qed.

Lemma strip_last chars s r c :
  Py.strip chars s = r +:+ String c "" -> Py.char_in c chars = false.
Proof.
  unfold Py.strip, Py.lstrip. intros E.
  destruct (lstrip_by_suffix (fun c => Py.char_in c chars) (Py.rstrip chars s))
    as (pre & Hpre).
  rewrite E, <- append_assoc in Hpre.
  exact (rstrip_by_last _ _ _ _ Hpre).
Qed.

End StringFacts.

(** ** Tokenization *)

Section Tokens.
Context {lib : PyLib}.
Implicit Types (l tokens : list string) (s d : string).

Lemma drop_trailing_empty_head l :
  head (drop_trailing_empty l) = Some "" <-> exists y ys, l = "" :: y :: ys.
Proof.
  unfold drop_trailing_empty. split.
  - destruct l as [|x [|y ys]]; simpl.
    + discriminate.
    + destruct x; simpl; [discriminate|]. intros [=].
    + destruct (last (y :: ys)) as [[|? ?]|]; simpl; intros [= ->]; eauto.
  - intros (y & ys & ->).
    change (last ("" :: y :: ys)) with (last (y :: ys)).
    destruct (last (y :: ys)) as [[|? ?]|]; reflexivity.
Qed.

Lemma removelast_snoc {A} (l : list A) x : removelast (l ++ [x]) = l.
Proof.
  induction l as [|a l IH]; [reflexivity|].
  simpl. rewrite IH. destruct l; reflexivity.
Qed.

Lemma drop_trailing_empty_last l :
  last (drop_trailing_empty l) = Some "" <-> exists l', l = l' ++ [""; ""].
Proof.
  unfold drop_trailing_empty. split.
  - destruct (last l) as [[|c t]|] eqn:E.
    + apply last_Some in E as [l1 ->]. rewrite removelast_snoc.
      intros E'. apply last_Some in E' as [l2 ->].
      exists l2. now rewrite <- app_assoc.
    + congruence.
    + congruence.
  - intros [l' ->].
    replace (l' ++ [""; ""]) with ((l' ++ [""]) ++ [""]) by now rewrite <- app_assoc.
    rewrite last_snoc, removelast_snoc. apply last_snoc.
Qed.

Lemma request_tokens_tokenize s :
  request_tokens s
  = if Py.truth (unquote s) then Ok (tokenize s) else Raise IndexError.
Proof.
  unfold request_tokens, tokenize.
  destruct (unquote s) as [|c d] eqn:Ed; [reflexivity|].
  change (Py.truth (String c d)) with true. cbv iota.
  destruct (split_cons "/" (String c d)) as (t & ts & E). rewrite E.
  assert (Hts : t = "" -> ts <> []).
  { intros -> ->. apply split_single_empty in E. discriminate. }
  unfold Py.getitem. simpl.
  destruct t as [|a t]; simpl.
  - rewrite drop_0. destruct ts as [|y ys]; [now destruct Hts|].
    unfold Py.getlast, drop_trailing_empty.
    destruct (last (y :: ys)) as [[|? ?]|] eqn:El; simpl; try reflexivity.
    apply last_None in El. discriminate.
  - unfold Py.getlast, drop_trailing_empty.
    destruct (last (String a t :: ts)) as [[|? ?]|] eqn:El; simpl;
      try reflexivity.
    apply last_None in El. discriminate.
Qed.

Lemma tokenize_head s :
  head (tokenize s) = Some "" <-> exists r, unquote s = "//" +:+ r.
Proof.
  unfold tokenize. rewrite drop_trailing_empty_head. split.
  - intros (y & ys & E).
    destruct (Py.split "/" (unquote s)) as [|t ts] eqn:Es; [discriminate|].
    destruct t as [|a t]; simpl in E; [|discriminate].
    subst ts. apply split_head_sep in Es as (r & -> & Es).
    apply split_head_sep in Es as (r' & -> & _). now exists r'.
  - intros [r ->]. simpl.
    destruct (split_cons "/" r) as (t & ts & ->). simpl. eauto.
Qed.

Lemma tokenize_last s :
  last (tokenize s) = Some "" <-> exists r, unquote s = r +:+ "//".
Proof.
  unfold tokenize. rewrite drop_trailing_empty_last. split.
  - intros (l' & E).
    assert (exists l'', l'' <> [] /\ Py.split "/" (unquote s) = l'' ++ [""; ""])
      as (l'' & Hne & Es).
    { destruct (Py.split "/" (unquote s)) as [|t ts] eqn:Es.
      - destruct l'; discriminate.
      - destruct t as [|a t]; simpl in E.
        + exists ("" :: l'). split; [discriminate|]. now rewrite E.
        + exists l'. split; [|exact E]. intros ->. discriminate. }
    replace (l'' ++ [""; ""]) with ((l'' ++ [""]) ++ [""]) in Es
      by now rewrite <- app_assoc.
    apply split_snoc_inv in Es as (d' & -> & Es);
      [|destruct l''; discriminate].
    apply split_snoc_inv in Es as (d'' & -> & _); [|exact Hne].
    exists d''. now rewrite append_assoc.
  - intros [r ->].
    change (r +:+ "//") with (r +:+ ("/" +:+ "/")).
    rewrite <- append_assoc, !split_snoc.
    destruct (split_cons "/" r) as (t & ts & ->).
    destruct t as [|a t]; simpl.
    + exists ts. now rewrite <- app_assoc.
    + exists (String a t :: ts). simpl. now rewrite <- app_assoc.
Qed.

End Tokens.

(** C2 (amended).  [handle_request] trims white space and then every
    leading and trailing [/] from the path.  The token list of the trimmed
    path is the one of the tokenization rule: percent-decode, split on [/],
    drop one leading and one trailing empty token (it raises [IndexError]
    when the decoded path is empty).  The list begins, respectively ends,
    with an empty token exactly when the decoded path begins, respectively
    ends, with two slashes; so it does neither when decoding leaves the
    trimmed path as it is. *)
Theorem request_tokens_rule {lib : PyLib} (path : string) :
  let trimmed := Py.strip "/" (Py.strip_ws path) in
  let decoded := unquote trimmed in
  let tokens := tokenize trimmed in
  request_tokens trimmed
    = (if Py.truth decoded then Ok tokens else Raise IndexError)
  /\ (head tokens = Some "" <-> exists r, decoded = "//" +:+ r)
  /\ (last tokens = Some "" <-> exists r, decoded = r +:+ "//")
  /\ (decoded = trimmed -> head tokens <> Some "" /\ last tokens <> Some "").
Proof.
  intros trimmed decoded tokens.
  split; [apply request_tokens_tokenize|].
  split; [apply tokenize_head|].
  split; [apply tokenize_last|].
  intros Hid. split; intros E.
  - apply tokenize_head in E as [r E]. fold decoded in E. rewrite Hid in E.
    apply strip_head in E. discriminate.
  - apply tokenize_last in E as [r E]. fold decoded in E. rewrite Hid in E.
    change (r +:+ "//") with (r +:+ ("/" +:+ "/")) in E.
    rewrite <- append_assoc in E. apply strip_last in E. discriminate.
Qed.

(** The rule on a path without escapes. *)
Lemma request_tokens_rule_witness :
  let trimmed := Py.strip "/" (Py.strip_ws " /r/pics/comments/abc/ ") in
  @unquote reflib trimmed = trimmed
  /\ @request_tokens reflib trimmed = Ok ["r"; "pics"; "comments"; "abc"]
  /\ head (@tokenize reflib trimmed) <> Some ""
  /\ last (@tokenize reflib trimmed) <> Some "".
Proof.
  intros trimmed.
  destruct (@request_tokens_rule reflib " /r/pics/comments/abc/ ")
    as (Hrun & _ & _ & Hends).
  split; [reflexivity|]. split; [exact Hrun|]. apply Hends. reflexivity.
Defined.

(** C2, as stated, fails: escaped slashes at the ends of the path survive
    the trimming, and only one empty token is dropped at each end. *)
Lemma request_tokens_empty_ends :
  let tokens := [""; "r"; "pics"; ""] in
  @request_tokens reflib (Py.strip "/" (Py.strip_ws "/%2F%2Fr%2Fpics%2F%2F/"))
    = Ok tokens
  /\ head tokens = Some "" /\ last tokens = Some "".
Proof. repeat split. Qed.

(** The trimming comes before the rule: on the path as received the rule
    would keep an empty token that [handle_request] does not see. *)
Example trimming_precedes_rule :
  @tokenize reflib "//a" = [""; "a"]
  /\ @request_tokens reflib (Py.strip "/" (Py.strip_ws "//a")) = Ok ["a"].
Proof. split; reflexivity. Qed.

(** C3.  A relative URL whose path decodes to a single slash: the token
    list of the check-only router is empty, [tokens[0]] raises
    [IndexError], and [parse_reddit_url] raises with it. *)
Theorem parse_reddit_url_raises :
  @request_tokens reflib "%2F" = Ok []
  /\ @handle_request reflib refenv no_pages "%2F" "" true = Raise IndexError
  /\ @parse_reddit_url reflib refenv "%2F" = Raise IndexError.
Proof. repeat split. Qed.

(** ** Loops *)

Section Loops.
Context {A : Type}.
Implicit Types (f : A -> result (list string)) (xs : list A)
  (lines : list string).

Lemma for_each_extend f lines xs :
  for_each (extend_with f) lines xs
  = items ← mapM f xs; Ok (lines ++ blocks items).
Proof.
  revert lines. induction xs as [|x xs IH]; intros lines.
  - simpl. now rewrite app_nil_r.
  - cbn [for_each mapM].
    change (extend_with f lines x)
      with (f x ≫= fun summary => Ok ((lines ++ summary) ++ [""])).
    destruct (f x) as [summary|e]; [|reflexivity].
    change (for_each (extend_with f) ((lines ++ summary) ++ [""]) xs
            = (mapM f xs ≫= fun k => Ok (summary :: k))
              ≫= fun items => Ok (lines ++ blocks items)).
    rewrite IH. destruct (mapM f xs) as [items|e]; [|reflexivity].
    change (Ok (((lines ++ summary) ++ [""]) ++ blocks items)
            = Ok (lines ++ (summary ++ [""]) ++ blocks items)).
    now rewrite <- !app_assoc.
Qed.

Lemma mapM_Ok_length {B} (g : A -> result B) xs ys :
  mapM g xs = Ok ys -> length ys = length xs.
Proof.
  revert ys. induction xs as [|x xs IH]; intros ys; simpl.
  - now intros [= <-].
  - destruct (g x) as [y|e]; simpl; [|discriminate].
    destruct (mapM g xs) as [ys'|e]; simpl; [|discriminate].
    intros [= <-]. simpl. now rewrite (IH ys').
Qed.

Lemma mapM_Ok_lookup {B} (g : A -> result B) xs ys i x :
  mapM g xs = Ok ys -> xs !! i = Some x ->
  exists y, g x = Ok y /\ ys !! i = Some y.
Proof.
  revert ys i. induction xs as [|x' xs IH]; intros ys i; simpl.
  - intros _ [=].
  - destruct (g x') as [y|e] eqn:Ey; simpl; [|discriminate].
    destruct (mapM g xs) as [ys'|e]; simpl; [|discriminate].
    intros [= <-]. destruct i as [|i]; simpl.
    + intros [= <-]. eauto.
    + intros Hx. exact (IH ys' i eq_refl Hx).
Qed.

Lemma mapM_Raise {B} (g : A -> result B) xs e :
  mapM g xs = Raise e -> exists x, x ∈ xs /\ g x = Raise e.
Proof.
  induction xs as [|x xs IH]; simpl; [discriminate|].
  destruct (g x) as [y|e'] eqn:Ey; simpl.
  - destruct (mapM g xs) as [ys'|e'']; simpl; [discriminate|].
    intros [= ->]. destruct (IH eq_refl) as (x' & Hin & Hx').
    exists x'. split; [now right|exact Hx'].
  - intros [= ->]. exists x. split; [now left|exact Ey].
Qed.

End Loops.

Section FormatterFacts.
Context {lib : PyLib} {env : Env} {reddit : Reddit}.

Lemma extend_submission_eq : extend_submission = extend_with submission_summary.
Proof. reflexivity. Qed.

Lemma extend_comment_eq b :
  extend_comment b = extend_with (fun c => comment_summary c b).
Proof. reflexivity. Qed.

End FormatterFacts.

(** ** Which exceptions the classifier and the summaries raise *)

Section Raising.
Context {lib : PyLib} {env : Env} {reddit : Reddit}.




Lemma request_tokens_Raise s e : request_tokens s = Raise e -> e = IndexError.
Proof.
  rewrite request_tokens_tokenize.
  destruct (Py.truth (unquote s)); [discriminate|]. now intros [= <-].
Qed.

Lemma select_Raise path e : select path = Raise e -> e = IndexError.
Proof.
  unfold select. destruct (negb _); [discriminate|].
  destruct (request_tokens _) as [[|cmd rest]|e'] eqn:E; simpl.
  - now intros [= <-].
  - repeat (destruct (bool_decide _)); discriminate.
  - intros [= <-]. exact (request_tokens_Raise _ _ E).
Qed.

Lemma handle_request_check_Raise pg path query e :
  handle_request pg path query true = Raise e -> e = IndexError.
Proof.
  rewrite handle_request_check.
  destruct (select path) eqn:E; simpl; [discriminate|].
  intros [= <-]. exact (select_Raise _ _ E).
Qed.


Lemma date_time_subreddit (sr : Subreddit) :
  date_time sr true = Ok (utc_strftime (sr_created_utc sr) DATE_FMT).
Proof. reflexivity. Qed.

Lemma date_time_submission (s : Submission) :
  date_time s false = Ok (stamp (s_created_utc s) (s_edited s)).
Proof. unfold date_time, stamp. simpl. now destruct (s_edited s). Qed.

Lemma date_time_comment (c : Comment) :
  date_time c false = Ok (stamp (c_created_utc c) (c_edited c)).
Proof. unfold date_time, stamp. simpl. now destruct (c_edited c). Qed.






End Raising.

(** ** Subreddit listings *)

Section SubredditPage.
Context {lib : PyLib} {env : Env} {reddit : Reddit}.




(** The page of a fetched subreddit, for a supported sort key: the header
    and one block per submission of the first [ITEM_LIMIT] of the listing,
    whatever [limit] is. *)
Lemma display_subreddit_lines name sortby limit sr src :
  subreddit name = Some sr -> listing_of sr sortby = Some src ->
  display_subreddit name sortby limit
  = items ← mapM submission_summary (take ITEM_LIMIT src);
    Ok (subreddit_header sr ++ blocks items).
Proof.
  intros Hsr Hsrc. unfold display_subreddit. rewrite Hsr.
  cbn [external mbind result_bind]. rewrite date_time_subreddit.
  cbn [mbind result_bind]. revert Hsrc. unfold listing_of.
  repeat case_bool_decide; try discriminate; intros [= <-];
    cbn [mbind result_bind truth_listing Py.truth negb];
    rewrite extend_submission_eq, for_each_extend; reflexivity.
Qed.


End SubredditPage.

(** ** Which exceptions the pages raise *)

Section PageRaising.
Context {lib : PyLib} {env : Env} {reddit : Reddit}.












(** The classifier's question to the router is the check-only run of the
    router that serves the pages. *)
Lemma classifier_asks_live_router path query :
  handle_request no_pages path query true
  = handle_request pages path query true.
Proof. apply handle_request_check_pages. Qed.

End PageRaising.

(** ** Claims on the subreddit listing *)

Section SubredditClaims.
Context {lib : PyLib} {env : Env} {reddit : Reddit}.

(** C4.  The router asks for the listing of [r/name] with sort [hot] and
    limit 10, but [display_subreddit] never reads [limit]: on a fetched
    subreddit it renders one block for each of the first [ITEM_LIMIT]
    submissions of the listing, min(25, n) of them, whatever the limit. *)
Theorem display_subreddit_ignores_limit
    (name sortby : string) (limit : Z) (sr : Subreddit) (src : list Submission) :
  subreddit name = Some sr -> listing_of sr sortby = Some src ->
  (forall path query,
      handle_r pages [name] path query false
      = render (display_subreddit name "hot" 10))
  /\ display_subreddit name sortby limit
     = (items ← mapM submission_summary (take ITEM_LIMIT src);
        Ok (subreddit_header sr ++ blocks items))
  /\ (forall lines, display_subreddit name sortby limit = Ok lines ->
      exists items, length items = min ITEM_LIMIT (length src)
                    /\ lines = subreddit_header sr ++ blocks items).
Proof.
  intros Hsr Hsrc. split; [reflexivity|].
  split; [exact (display_subreddit_lines _ _ _ _ _ Hsr Hsrc)|].
  intros lines. rewrite (display_subreddit_lines _ _ _ _ _ Hsr Hsrc).
  intros H. apply bind_Ok in H as (items & Hitems & [= <-]).
  exists items. split; [|reflexivity].
  apply mapM_Ok_length in Hitems. now rewrite Hitems, length_take.
Qed.

(** C5.  A listing generator is true even when it yields nothing: with an
    empty listing the subreddit page is its header alone and the profile
    page has two empty sections; no placeholder line is written. *)
Theorem empty_listing_has_no_placeholder :
  (forall name sortby limit sr,
      subreddit name = Some sr -> listing_of sr sortby = Some [] ->
      display_subreddit name sortby limit = Ok (subreddit_header sr)
      /\ NOTHING_HERE ∉ subreddit_header sr)
  /\ (forall name r created link_karma comment_karma,
      redditor name = Some r -> r_is_suspended r <> Some true ->
      r_created_utc r = Some created -> r_link_karma r = Some link_karma ->
      r_comment_karma r = Some comment_karma ->
      r_submissions_new r = [] -> r_comments_new r = [] ->
      display_redditor name
      = Ok (redditor_header name created link_karma comment_karma
            ++ ["# Submissions"; ""; "# Comments"; ""])).
Proof.
  split.
  - intros name sortby limit sr Hsr Hsrc. split.
    + rewrite (display_subreddit_lines _ _ _ _ _ Hsr Hsrc). reflexivity.
    + unfold subreddit_header, NOTHING_HERE.
      rewrite !not_elem_of_cons. repeat split; try discriminate.
      apply not_elem_of_nil.
  - intros name r created lk ck Hr Hsus Hc Hlk Hck Hsubs Hcoms.
    unfold display_redditor. rewrite Hr. cbn [external mbind result_bind].
    unfold date_time, submissions_new, comments_new, iterate.
    cbn [created_utc edited redditor_dated lg_limit lg_source].
    rewrite Hc, Hlk, Hck, Hsubs, Hcoms.
    destruct (r_is_suspended r) as [[|]|]; [congruence|reflexivity..].
Qed.


End SubredditClaims.


(** ** Claims on the thread pages and the profile page *)

Section ThreadClaims.
Context {lib : PyLib} {env : Env} {reddit : Reddit}.

Lemma author_submission (s : Submission) :
  author s = default "[deleted]" (s_author s).
Proof. unfold author, author_of, submission_author. now destruct (s_author s). Qed.

Lemma author_comment (c : Comment) :
  author c = default "[deleted]" (c_author c).
Proof. unfold author, author_of, comment_author. now destruct (c_author c). Qed.

Lemma display_submission_lines id sub forest :
  submission id = Some (sub, forest) -> forest <> [] ->
  display_submission id
  = (body ← (if Py.truth (s_selftext sub)
             then body ← parse_markdown (s_selftext sub); Ok (body ++ [""])
             else Ok []);
     items ← mapM (fun c => comment_summary c true) (take ITEM_LIMIT forest);
     Ok (submission_header sub (length forest) (length (take ITEM_LIMIT forest))
         ++ body ++ [""; "# Comments"; ""] ++ blocks items)).
Proof.
  intros Hsub Hne. unfold display_submission. rewrite Hsub.
  cbn [external mbind result_bind]. rewrite date_time_submission.
  cbn [mbind result_bind].
  assert (Htruth : negb (Py.truth (take ITEM_LIMIT forest)) = false).
  { destruct forest; [congruence|reflexivity]. }
  rewrite Htruth, extend_comment_eq.
  destruct (Py.truth (s_selftext sub)).
  - destruct (parse_markdown (s_selftext sub)) as [body|e]; [|reflexivity].
    cbn [mbind result_bind]. rewrite for_each_extend.
    destruct (mapM _ _) as [items|e]; [|reflexivity].
    cbn [mbind result_bind]. rewrite author_submission.
    unfold submission_header. rewrite <- !app_assoc. reflexivity.
  - cbn [mbind result_bind]. rewrite for_each_extend.
    destruct (mapM _ _) as [items|e]; [|reflexivity].
    cbn [mbind result_bind]. rewrite author_submission.
    unfold submission_header. rewrite <- !app_assoc. reflexivity.
Qed.

Lemma display_comment_lines id c :
  comment id = Some c -> c_replies c <> [] ->
  display_comment id
  = (body ← parse_markdown (c_body c);
     submission_url ← get_submission_url c;
     '(parent_url, is_submission) ← get_parent_url c;
     items ← mapM (fun r => comment_summary r true)
                  (take ITEM_LIMIT (c_replies c));
     Ok (comment_header c (length (c_replies c))
           (length (take ITEM_LIMIT (c_replies c))) submission_url
         ++ (if is_submission : bool then []
             else ["=> " +:+ parent_url +:+ " View parent comment"])
         ++ [""] ++ body ++ [""; ""; "# Replies"; ""] ++ blocks items)).
Proof.
  intros Hc Hne. unfold display_comment. rewrite Hc.
  cbn [external mbind result_bind]. rewrite date_time_comment.
  cbn [mbind result_bind].
  destruct (parse_markdown (c_body c)) as [body|e]; [|reflexivity].
  cbn [mbind result_bind].
  destruct (get_submission_url c) as [surl|e]; [|reflexivity].
  cbn [mbind result_bind].
  destruct (get_parent_url c) as [[purl is_sub]|e]; [|reflexivity].
  cbn [mbind result_bind].
  assert (Htruth : negb (Py.truth (take ITEM_LIMIT (c_replies c))) = false).
  { destruct (c_replies c); [congruence|reflexivity]. }
  rewrite Htruth, extend_comment_eq, for_each_extend.
  destruct (mapM _ _) as [items|e]; [|reflexivity].
  cbn [mbind result_bind]. rewrite author_comment. unfold comment_header.
  destruct is_sub; cbn [negb]; rewrite <- ?app_assoc; reflexivity.
Qed.

End ThreadClaims.

Lemma mapM_Ok_Forall2 {A B} (g : A -> result B) xs ys :
  mapM g xs = Ok ys -> Forall2 (fun x y => g x = Ok y) xs ys.
Proof.
  revert ys. induction xs as [|x xs IH]; intros ys; simpl.
  - intros [= <-]. constructor.
  - destruct (g x) as [y|e] eqn:Ey; simpl; [|discriminate].
    destruct (mapM g xs) as [ys'|e]; simpl; [|discriminate].
    intros [= <-]. constructor; [exact Ey|]. now apply IH.
Qed.

Section PageClaims.
Context {lib : PyLib} {env : Env} {reddit : Reddit}.

(** C6.  On a submission page with more than 25 top-level comments, and on
    a comment page with more than 25 direct replies, the blocks rendered
    are the summaries of the first 25 items, and the summary line shows the
    true total next to the shown count 25. *)
Theorem pagination_cap :
  (forall id sub forest,
      submission id = Some (sub, forest) -> ITEM_LIMIT < length forest ->
      display_submission id
      = (body ← (if Py.truth (s_selftext sub)
                 then body ← parse_markdown (s_selftext sub); Ok (body ++ [""])
                 else Ok []);
         items ← mapM (fun c => comment_summary c true) (take 25 forest);
         Ok (submission_header sub (length forest) 25
             ++ body ++ [""; "# Comments"; ""] ++ blocks items))
      /\ forall lines, display_submission id = Ok lines ->
         lines !! 3 = Some (counts_line (s_score sub) (length forest) 25
                              " top-level comments (showing ")
         /\ exists top items,
              lines = top ++ blocks items /\ length items = 25
              /\ Forall2 (fun c item => comment_summary c true = Ok item)
                   (take 25 forest) items)
  /\ (forall id c,
      comment id = Some c -> ITEM_LIMIT < length (c_replies c) ->
      display_comment id
      = (body ← parse_markdown (c_body c);
         submission_url ← get_submission_url c;
         '(parent_url, is_submission) ← get_parent_url c;
         items ← mapM (fun r => comment_summary r true) (take 25 (c_replies c));
         Ok (comment_header c (length (c_replies c)) 25 submission_url
             ++ (if is_submission : bool then []
                 else ["=> " +:+ parent_url +:+ " View parent comment"])
             ++ [""] ++ body ++ [""; ""; "# Replies"; ""] ++ blocks items))
      /\ forall lines, display_comment id = Ok lines ->
         lines !! 1 = Some (counts_line (c_score c) (length (c_replies c)) 25
                              " direct replies (showing ")
         /\ exists top items,
              lines = top ++ blocks items /\ length items = 25
              /\ Forall2 (fun r item => comment_summary r true = Ok item)
                   (take 25 (c_replies c)) items).
Proof.
  split.
  - intros id sub forest Hsub Hlen.
    assert (Hne : forest <> []) by (intros ->; simpl in Hlen; lia).
    assert (Hshown : length (take ITEM_LIMIT forest) = 25).
    { rewrite length_take. unfold ITEM_LIMIT in *. lia. }
    pose proof (display_submission_lines _ _ _ Hsub Hne) as Heq.
    rewrite Hshown in Heq. split; [exact Heq|].
    intros lines. rewrite Heq. intros H.
    apply bind_Ok in H as (body & _ & H).
    apply bind_Ok in H as (items & Hitems & [= <-]).
    split; [reflexivity|].
    exists (submission_header sub (length forest) 25 ++ body
            ++ [""; "# Comments"; ""]), items.
    split; [|split].
    + rewrite <- !app_assoc. reflexivity.
    + apply mapM_Ok_length in Hitems. rewrite Hitems. exact Hshown.
    + now apply mapM_Ok_Forall2.
  - intros id c Hc Hlen.
    assert (Hne : c_replies c <> [])
      by (intros E; rewrite E in Hlen; simpl in Hlen; lia).
    assert (Hshown : length (take ITEM_LIMIT (c_replies c)) = 25).
    { rewrite length_take. unfold ITEM_LIMIT in *. lia. }
    pose proof (display_comment_lines _ _ Hc Hne) as Heq.
    rewrite Hshown in Heq. split; [exact Heq|].
    intros lines. rewrite Heq. intros H.
    apply bind_Ok in H as (body & _ & H).
    apply bind_Ok in H as (surl & _ & H).
    apply bind_Ok in H as ([purl is_sub] & _ & H).
    apply bind_Ok in H as (items & Hitems & [= <-]).
    split; [reflexivity|].
    exists (comment_header c (length (c_replies c)) 25 surl
            ++ (if is_sub then []
                else ["=> " +:+ purl +:+ " View parent comment"])
            ++ [""] ++ body ++ [""; ""; "# Replies"; ""]), items.
    split; [|split].
    + rewrite <- !app_assoc. reflexivity.
    + apply mapM_Ok_length in Hitems. rewrite Hitems. exact Hshown.
    + now apply mapM_Ok_Forall2.
Qed.

(** C7.  For a suspended account the profile page is the heading and the
    notice, whatever the other attributes of the account are, missing ones
    included: none of them is read. *)
Theorem suspended_redditor (name : string) (r : Redditor) :
  redditor name = Some r -> r_is_suspended r = Some true ->
  display_redditor name
  = Ok ["# Redditor: " +:+ name; "User is banned or suspended."].
Proof.
  intros Hr Hs. unfold display_redditor. rewrite Hr.
  cbn [external mbind result_bind]. now rewrite Hs.
Qed.

End PageClaims.

(** ** The markdown adapter *)

Section Markdown.
Context {lib : PyLib} {env : Env}.

Lemma heading_condition line :
  Py.startswith "#" line || Py.startswith "##" line = Py.startswith "#" line.
Proof.
  destruct line as [|c line]; [reflexivity|]. cbn [Py.startswith].
  destruct (Ascii.eqb "#" c); [|reflexivity].
  destruct line; reflexivity.
Qed.

Lemma parse_markdown_step_rewrite gemtext i line :
  gemtext !! i = Some line ->
  parse_markdown_step gemtext i
  = new_line ← rewrite_line line; Ok (<[i := new_line]> gemtext).
Proof.
  intros Hi. unfold parse_markdown_step, rewrite_line.
  assert (Hget : Py.getitem gemtext i = Ok line)
    by (unfold Py.getitem; now rewrite Hi).
  rewrite Hget. cbn [mbind result_bind].
  assert (Hlt : i < length gemtext) by (apply lookup_lt_is_Some; eauto).
  assert (Hset : forall v, Py.setitem gemtext i v = Ok (<[i := v]> gemtext)).
  { intros v. unfold Py.setitem. now case_decide. }
  destruct (_ || _); [apply Hset|].
  destruct (Py.startswith "=> " line).
  - destruct (Py.getitem _ 1) as [t1|e]; [|reflexivity].
    cbn [mbind result_bind].
    destruct (parse_reddit_url t1) as [u|e]; [|reflexivity].
    cbn [mbind result_bind].
    destruct (Py.setitem _ 1 u) as [tokens|e]; [|reflexivity].
    cbn [mbind result_bind]. apply Hset.
  - cbn [mbind result_bind]. f_equal. symmetry. now apply list_insert_id.
Qed.

Lemma parse_markdown_loop done todo :
  for_each parse_markdown_step (done ++ todo) (seq (length done) (length todo))
  = out ← mapM rewrite_line todo; Ok (done ++ out).
Proof.
  revert done. induction todo as [|line todo IH]; intros done.
  - reflexivity.
  - cbn [length seq for_each mapM].
    rewrite (parse_markdown_step_rewrite _ _ line)
      by apply list_lookup_middle, eq_refl.
    destruct (rewrite_line line) as [new_line|e]; [|reflexivity].
    cbn [mbind result_bind].
    replace (<[length done := new_line]> (done ++ line :: todo))
      with ((done ++ [new_line]) ++ todo).
    2:{ rewrite <- (Nat.add_0_r (length done)), insert_app_r.
        now rewrite <- app_assoc. }
    replace (S (length done)) with (length (done ++ [new_line]))
      by (rewrite length_app; simpl; lia).
    rewrite IH. destruct (mapM rewrite_line todo) as [out|e]; [|reflexivity].
    cbn [mbind result_bind mret result_ret]. now rewrite <- app_assoc.
Qed.

Lemma parse_markdown_lines md :
  parse_markdown md
  = mapM rewrite_line (Py.split (Py.chr 10) (md2gemini md)).
Proof.
  unfold parse_markdown.
  pose proof (parse_markdown_loop [] (Py.split (Py.chr 10) (md2gemini md)))
    as H.
  cbn [app length] in H. rewrite H. now destruct (mapM _ _).
Qed.

(** C9.  [parse_markdown] rewrites the converter's lines one by one, and
    a line that begins with [#] gets one more [#] whatever its level: the
    test for one or two markers is the test for one.  A line with three
    markers comes out with four. *)
Theorem heading_marker_prepended (md : string) :
  parse_markdown md = mapM rewrite_line (Py.split (Py.chr 10) (md2gemini md))
  /\ (forall line,
      Py.startswith "#" line || Py.startswith "##" line
      = Py.startswith "#" line)
  /\ (forall line, Py.startswith "#" line = true ->
      rewrite_line line = Ok ("#" +:+ line))
  /\ (forall rest, rewrite_line ("###" +:+ rest) = Ok ("####" +:+ rest))
  /\ (forall out i line,
      parse_markdown md = Ok out ->
      Py.split (Py.chr 10) (md2gemini md) !! i = Some line ->
      Py.startswith "#" line = true ->
      out !! i = Some ("#" +:+ line)).
Proof.
  split; [apply parse_markdown_lines|].
  split; [apply heading_condition|].
  assert (Hhead : forall line, Py.startswith "#" line = true ->
                               rewrite_line line = Ok ("#" +:+ line)).
  { intros line H. unfold rewrite_line. now rewrite heading_condition, H. }
  split; [exact Hhead|]. split; [intros rest; now apply Hhead|].
  intros out i line Hout Hi Hline. rewrite parse_markdown_lines in Hout.
  destruct (mapM_Ok_lookup _ _ _ _ _ Hout Hi) as (y & Hy & Hlook).
  rewrite (Hhead _ Hline) in Hy. now injection Hy as <-.
Qed.

End Markdown.

(** ** The link to the parent comment *)

Section ParentLink.
Context {lib : PyLib} {env : Env}.

Lemma lstrip_by_length p s :
  String.length (Py.lstrip_by p s) <= String.length s.
Proof.
  induction s as [|c s IH]; simpl; [lia|]. destruct (p c); simpl; lia.
Qed.

Lemma lstrip_by_shorter p c s :
  p c = true -> Py.lstrip_by p (String c s) <> String c s.
Proof.
  intros Hc E. pose proof (lstrip_by_length p s) as Hlen.
  simpl in E. rewrite Hc in E. rewrite E in Hlen. simpl in Hlen. lia.
Qed.

Lemma insert_last {A} (xs : list A) v :
  xs <> [] -> <[pred (length xs) := v]> xs = removelast xs ++ [v].
Proof.
  intros Hne. destruct xs as [|x xs _] using rev_ind; [congruence|].
  rewrite removelast_snoc, length_app. simpl.
  replace (pred (length xs + 1)) with (length xs + 0) by lia.
  now rewrite insert_app_r.
Qed.

(** C10.  When the parent is a comment, the last fragment of the comment's
    permalink is replaced by [parent_id.lstrip('t1_')]: the parent's ID
    without its leading characters among [t], [1] and [_], not only without
    the prefix [t1_].  An ID that begins with one of the three comes out
    shorter, and the link does not end with the parent's ID. *)
Theorem parent_link_strips_characters (c : Comment) (pid : string) :
  c_parent_id c = "t1_" +:+ pid ->
  let fragments := Py.split "/" (Py.rstrip "/" (c_permalink c)) in
  let segment := Py.lstrip_by (fun ch => Py.char_in ch "t1_") pid in
  get_parent_url c
  = (url ← parse_reddit_url (Py.join "/" (removelast fragments ++ [segment]));
     Ok (url, false))
  /\ Py.lstrip "t1_" (c_parent_id c) = segment
  /\ (forall ch rest, pid = String ch rest -> Py.char_in ch "t1_" = true ->
      segment <> pid /\ String.length segment < String.length pid).
Proof.
  intros Hpid fragments segment.
  assert (Hseg : Py.lstrip "t1_" (c_parent_id c) = segment)
    by (rewrite Hpid; reflexivity).
  split; [|split; [exact Hseg|]].
  - unfold get_parent_url. rewrite Hseg, Hpid.
    change (Py.startswith "t1_" ("t1_" +:+ pid)) with true. cbv iota.
    fold fragments. destruct (split_cons "/" (Py.rstrip "/" (c_permalink c)))
      as (t & ts & E). fold fragments in E.
    unfold Py.setlast. rewrite insert_last by (rewrite E; discriminate).
    rewrite E. reflexivity.
  - intros ch rest -> Hch. split.
    + now apply lstrip_by_shorter.
    + subst segment. cbn [Py.lstrip_by]. rewrite Hch. cbn [String.length].
      pose proof (lstrip_by_length (fun ch => Py.char_in ch "t1_") rest). lia.
Qed.

End ParentLink.

(** * Further properties of the code *)

(** ** The router *)

Section RouterProperties.
Context {lib : PyLib} {env : Env}.
Implicit Types (pg : Pages) (path query : string).

Lemma status_ok lines j : status (ok lines j) = STATUS_SUCCESS.
Proof. reflexivity. Qed.

Lemma status_bad_request msg : status (bad_request msg) = STATUS_BAD_REQUEST.
Proof. reflexivity. Qed.

Lemma status_get_input msg : status (get_input msg) = STATUS_INPUT.
Proof. reflexivity. Qed.

Lemma status_redirect url : status (redirect url true) = STATUS_REDIRECT.
Proof. reflexivity. Qed.

Lemma respond_status pg path query b r :
  respond pg path query b = Ok r ->
  exists response,
    r = RBytes response
    /\ status response
       = match b with
         | BadShape | UnknownCommand => STATUS_BAD_REQUEST
         | SubredditQuery | RedditorQuery =>
             if Py.truth query then STATUS_REDIRECT else STATUS_INPUT
         | _ => STATUS_SUCCESS
         end.
Proof.
  assert (Hrender : forall page, render page = Ok r ->
            exists response, r = RBytes response
                             /\ status response = STATUS_SUCCESS).
  { intros [lines|e]; [|discriminate]. intros [= <-]. eauto using status_ok. }
  destruct b; unfold respond; try apply Hrender.
  - destruct LANDING_PAGE as [[|c f]|]; try (intros [= <-]; eauto using status_ok).
    destruct (readlines _); [|discriminate]. intros [= <-]. eauto using status_ok.
  - destruct query; intros [= <-]; eexists; split; reflexivity.
  - destruct query; intros [= <-]; eexists; split; reflexivity.
  - intros [= <-]. eauto using status_bad_request.
  - intros [= <-]. eauto using status_bad_request.
Qed.

(** X1.  In check-only mode [handle_request] returns a [bool]; in live
    mode it returns [bytes] that begin with one of the four status codes. *)
Theorem handle_request_returns pg path query :
  (forall r, handle_request pg path query true = Ok r -> exists b, r = RBool b)
  /\ (forall r, handle_request pg path query false = Ok r ->
      exists response,
        r = RBytes response
        /\ status response
           ∈ [STATUS_SUCCESS; STATUS_REDIRECT; STATUS_INPUT; STATUS_BAD_REQUEST]).
Proof.
  split; intros r.
  - rewrite handle_request_check. intros H.
    apply bind_Ok in H as (b & _ & [= <-]). eauto.
  - rewrite handle_request_live. intros H.
    apply bind_Ok in H as (b & _ & H).
    apply respond_status in H as (response & -> & Hst).
    exists response. split; [reflexivity|]. rewrite Hst.
    rewrite !elem_of_cons. destruct b; try destruct (Py.truth query); tauto.
Qed.

Lemma tokenize_nil s :
  tokenize s = [] <-> unquote s = "" \/ unquote s = "/".
Proof.
  unfold tokenize.
  destruct (split_cons "/" (unquote s)) as (t & ts & E). rewrite E. split.
  - destruct t as [|a t]; cbn [drop_leading_empty].
    + destruct ts as [|y ys].
      * intros _. left. now apply (split_single_empty "/").
      * unfold drop_trailing_empty.
        destruct (last (y :: ys)) as [[|? ?]|] eqn:El; try discriminate.
        intros Hrm. right.
        apply last_Some in El as [l' El]. rewrite El, removelast_snoc in Hrm.
        subst l'. injection El as -> ->.
        apply split_head_sep in E as (r & -> & Er).
        now apply split_single_empty in Er as ->.
    + unfold drop_trailing_empty.
      destruct (last (String a t :: ts)) as [[|? ?]|] eqn:El; try discriminate.
      intros Hrm. apply last_Some in El as [l' El].
      rewrite El, removelast_snoc in Hrm. subst l'. discriminate.
  - intros [Hd|Hd]; rewrite Hd in E; injection E as <- <-; reflexivity.
Qed.

Lemma select_IndexError path :
  let trimmed := Py.strip "/" (Py.strip_ws path) in
  select path = Raise IndexError
  <-> trimmed <> "" /\ (unquote trimmed = "" \/ unquote trimmed = "/").
Proof.
  intros trimmed. unfold select. fold trimmed.
  destruct trimmed as [|c tr] eqn:Etr.
  { simpl. split; [discriminate|]. now intros [[] _]. }
  change (negb (Py.truth (String c tr))) with false. cbv iota.
  rewrite request_tokens_tokenize.
  pose proof (tokenize_nil (String c tr)) as Hnil.
  destruct (unquote (String c tr)) as [|d ds] eqn:Ed.
  { simpl. split; [intros _; split; [discriminate|now left]|reflexivity]. }
  change (Py.truth (String d ds)) with true. cbv iota.
  cbn [mbind result_bind].
  destruct (tokenize (String c tr)) as [|cmd rest].
  - split; [intros _; split; [discriminate|]|reflexivity].
    now apply Hnil.
  - split.
    + repeat (destruct (bool_decide _)); discriminate.
    + intros [_ Hd]. apply Hnil in Hd. discriminate.
Qed.

(** X2.  The router raises [IndexError] exactly on a non-blank trimmed path
    that decodes to nothing or to a single slash; check-only mode raises
    nothing else, and live dispatch raises on the same paths. *)
Theorem router_index_error pg path query :
  let trimmed := Py.strip "/" (Py.strip_ws path) in
  (handle_request pg path query true = Raise IndexError
   <-> trimmed <> "" /\ (unquote trimmed = "" \/ unquote trimmed = "/"))
  /\ (forall e, handle_request pg path query true = Raise e -> e = IndexError)
  /\ (handle_request pg path query true = Raise IndexError ->
      handle_request pg path query false = Raise IndexError).
Proof.
  intros trimmed.
  assert (Hsel : handle_request pg path query true = Raise IndexError
                 <-> select path = Raise IndexError).
  { rewrite handle_request_check. destruct (select path) as [b|e]; simpl.
    - split; discriminate.
    - split; intros [= ->]; reflexivity. }
  split; [rewrite Hsel; apply select_IndexError|].
  split; [apply handle_request_check_Raise|].
  rewrite Hsel, handle_request_live. now intros ->.
Qed.

Lemma select_r_query rest :
  (select_r rest = SubredditQuery -> rest = [])
  /\ select_r rest <> RedditorQuery.
Proof.
  destruct rest as [|t0 [|t1 [|t2 [|t3 [|t4 rest]]]]]; simpl;
    try case_bool_decide; split; (reflexivity || discriminate).
Qed.

Lemma select_u_query rest :
  (select_u rest = RedditorQuery -> rest = [])
  /\ select_u rest <> SubredditQuery.
Proof.
  destruct rest as [|t0 [|t1 rest]]; simpl; split;
    (reflexivity || discriminate).
Qed.

Lemma select_query_branch path b :
  let trimmed := Py.strip "/" (Py.strip_ws path) in
  select path = Ok b ->
  (b = SubredditQuery -> request_tokens trimmed = Ok ["r"])
  /\ (b = RedditorQuery -> request_tokens trimmed = Ok ["u"]).
Proof.
  intros trimmed. unfold select. fold trimmed.
  destruct (negb (Py.truth trimmed)).
  { intros [= <-]. split; discriminate. }
  destruct (request_tokens trimmed) as [[|cmd rest]|e]; simpl; try discriminate.
  destruct (select_r_query rest) as [Hr Hr'].
  destruct (select_u_query rest) as [Hu Hu'].
  case_bool_decide; [subst cmd|case_bool_decide; [subst cmd|]];
    intros [= <-]; split; intros E;
    try discriminate; try congruence.
  - now rewrite (Hr E).
  - now rewrite (Hu E).
Qed.

(** X3.  The query string is read only for the bare commands [r] and [u]:
    check-only mode never depends on it, live dispatch depends on it only
    when the token list is [["r"]] or [["u"]], and there a non-empty query
    gives the permanent redirect and an empty one the prompt. *)
Theorem query_is_read_for_bare_commands pg path query query' :
  let trimmed := Py.strip "/" (Py.strip_ws path) in
  handle_request pg path query true = handle_request pg path query' true
  /\ (request_tokens trimmed <> Ok ["r"] -> request_tokens trimmed <> Ok ["u"] ->
      handle_request pg path query false = handle_request pg path query' false)
  /\ (trimmed <> "" -> request_tokens trimmed = Ok ["r"] ->
      handle_request pg path query false
      = Ok (RBytes (if Py.truth query
                    then redirect (BASE_URL +:+ "r/" +:+ query) true
                    else get_input "Enter subreddit name:")))
  /\ (trimmed <> "" -> request_tokens trimmed = Ok ["u"] ->
      handle_request pg path query false
      = Ok (RBytes (if Py.truth query
                    then redirect (BASE_URL +:+ "u/" +:+ query) true
                    else get_input "Enter Redditor name:"))).
Proof.
  intros trimmed. split; [now rewrite !handle_request_check|].
  split; [|split].
  - intros Hr Hu. rewrite !handle_request_live.
    destruct (select path) as [b|e] eqn:Hb; [|reflexivity].
    destruct (select_query_branch _ _ Hb) as [Hbr Hbu]. fold trimmed in Hbr, Hbu.
    destruct b; try reflexivity.
    + now destruct Hr; apply Hbr.
    + now destruct Hu; apply Hbu.
  - intros Hne Htok. unfold handle_request. fold trimmed.
    destruct trimmed; [congruence|]. rewrite Htok. now destruct query.
  - intros Hne Htok. unfold handle_request. fold trimmed.
    destruct trimmed; [congruence|]. rewrite Htok. now destruct query.
Qed.

(** X4.  Check-only mode answers [False] exactly when live dispatch answers
    with one of the two bad-request responses, each of which quotes the
    trimmed path. *)
Theorem unsupported_path_is_echoed pg path query :
  let trimmed := Py.strip "/" (Py.strip_ws path) in
  handle_request pg path query true = Ok (RBool false)
  <-> (handle_request pg path query false
       = Ok (RBytes (bad_request ("Request invalid or not supported: "
                                  +:+ trimmed)))
       \/ handle_request pg path query false
          = Ok (RBytes (bad_request ("Couldn't parse path " +:+ QUOTE
                                     +:+ trimmed +:+ QUOTE +:+ ".")))).
Proof.
  intros trimmed. rewrite handle_request_check, handle_request_live.
  destruct (select path) as [b|e]; simpl.
  2:{ split; [discriminate|intros [H|H]; discriminate]. }
  split.
  - intros [= H]. destruct b; try discriminate; [left|right]; reflexivity.
  - intros H.
    assert (Hbad : is_bad_request b = true).
    { apply (respond_bad_request pg path query).
      destruct H as [H|H]; eexists; exact H. }
    now rewrite Hbad.
Qed.

(** X5.  A thread URL is resolved by its IDs alone: two requests for a
    comment thread with the same comment ID get the same answer whatever
    their subreddit names, submission IDs, title slugs and further
    segments are; likewise two requests for a submission thread with the
    same submission ID. *)
Theorem thread_urls_use_ids_only pg path path' query check_only :
  let trimmed := Py.strip "/" (Py.strip_ws path) in
  let trimmed' := Py.strip "/" (Py.strip_ws path') in
  trimmed <> "" -> trimmed' <> "" ->
  (forall name name' sid sid' slug slug' cid more more',
      request_tokens trimmed
      = Ok ("r" :: name :: "comments" :: sid :: slug :: cid :: more) ->
      request_tokens trimmed'
      = Ok ("r" :: name' :: "comments" :: sid' :: slug' :: cid :: more') ->
      handle_request pg path query check_only
      = handle_request pg path' query check_only
      /\ handle_request pg path query false
         = render (display_comment_page pg cid))
  /\ (forall name name' sid rest rest',
      length rest <= 1 -> length rest' <= 1 ->
      request_tokens trimmed = Ok ("r" :: name :: "comments" :: sid :: rest) ->
      request_tokens trimmed' = Ok ("r" :: name' :: "comments" :: sid :: rest') ->
      handle_request pg path query check_only
      = handle_request pg path' query check_only
      /\ handle_request pg path query false
         = render (display_submission_page pg sid)).
Proof.
  intros trimmed trimmed' Hne Hne'.
  assert (Hrun : forall p co tokens,
             Py.strip "/" (Py.strip_ws p) <> "" ->
             request_tokens (Py.strip "/" (Py.strip_ws p)) = Ok ("r" :: tokens) ->
             handle_request pg p query co
             = handle_r pg tokens (Py.strip "/" (Py.strip_ws p)) query co).
  { intros p co tokens Hp Htok. unfold handle_request.
    destruct (Py.strip "/" (Py.strip_ws p)) eqn:E; [congruence|].
    change (negb (Py.truth (String a s))) with false. cbv iota.
    rewrite Htok. reflexivity. }
  split.
  - intros name name' sid sid' slug slug' cid more more' Htok Htok'.
    rewrite !(Hrun path _ _ Hne Htok), (Hrun path' _ _ Hne' Htok').
    split; [destruct check_only|]; reflexivity.
  - intros name name' sid rest rest' Hlen Hlen' Htok Htok'.
    rewrite !(Hrun path _ _ Hne Htok), (Hrun path' _ _ Hne' Htok').
    destruct rest as [|? [|? ?]]; [| |simpl in Hlen; lia];
      (destruct rest' as [|? [|? ?]]; [| |simpl in Hlen'; lia]);
      split; try destruct check_only; reflexivity.
Qed.

End RouterProperties.

(** ** The URL classifier *)

Section ClassifierProperties.
Context {lib : PyLib} {env : Env}.

(** X6.  [parse_reddit_url] returns its argument, or [BASE_URL] followed by
    the path of the URL without its leading slashes: what is added to
    [BASE_URL] never begins with a slash, and the query and fragment of the
    URL are not carried over.  It rewrites exactly when the URL is relative
    or on a Reddit domain and the router supports its path. *)
Theorem parse_reddit_url_result (url : string) (parsed : Url.t) :
  urlparse url = Some parsed ->
  let suffix := Py.lstrip "/" (Url.path parsed) in
  let on_reddit :=
    negb (Py.truth (Url.scheme parsed) || Py.truth (Url.netloc parsed))
    || is_reddit_domain (Url.netloc parsed) in
  Py.startswith "/" suffix = false
  /\ (forall out, parse_reddit_url url = Ok out ->
      out = url \/ out = BASE_URL +:+ suffix)
  /\ (forall pg,
      on_reddit = true ->
      handle_request pg (Url.path parsed) (Url.query parsed) true
      = Ok (RBool true) ->
      parse_reddit_url url = Ok (BASE_URL +:+ suffix))
  /\ (forall pg,
      on_reddit = false
      \/ handle_request pg (Url.path parsed) (Url.query parsed) true
         = Ok (RBool false) ->
      parse_reddit_url url = Ok url).
Proof.
  intros Hp suffix on_reddit.
  assert (Hrun : parse_reddit_url url
    = (supported ← (if on_reddit
                    then r ← handle_request no_pages (Url.path parsed)
                               (Url.query parsed) true;
                         Ok (Py.truth r)
                    else Ok false);
       if supported : bool then Ok (BASE_URL +:+ suffix) else Ok url)).
  { unfold parse_reddit_url. rewrite Hp. cbn [external mbind result_bind].
    subst on_reddit. unfold is_reddit_domain.
    destruct (negb _); reflexivity. }
  split; [|split; [|split]].
  - subst suffix. destruct (Py.lstrip "/" (Url.path parsed)) as [|c r] eqn:E;
      [reflexivity|].
    apply lstrip_by_head in E. cbn [Py.startswith].
    destruct (Ascii.eqb_spec "/" c) as [<-|Hc]; [discriminate|reflexivity].
  - intros out. rewrite Hrun. intros H.
    apply bind_Ok in H as ([|] & _ & [= <-]); [now right|now left].
  - intros pg Hon Hsup. rewrite Hrun, Hon.
    rewrite (handle_request_check_pages no_pages pg), Hsup. reflexivity.
  - intros pg [Hoff|Hsup]; rewrite Hrun.
    + now rewrite Hoff.
    + rewrite (handle_request_check_pages no_pages pg), Hsup.
      now destruct on_reddit.
Qed.

(** X7.  [parse_reddit_url] starts with [urlparse], and raises when
    [urlparse] raises on the URL.  When the URL parses, and has a scheme or
    a host, and the last two labels of the host are neither [redd.it] nor
    [reddit.com], the URL is returned as it is, without a question to the
    router: whatever its path is, the call does not raise then. *)
Theorem foreign_url_unchanged (url : string) :
  (urlparse url = None -> parse_reddit_url url = Raise External)
  /\ (forall parsed,
      urlparse url = Some parsed ->
      Url.scheme parsed <> "" \/ Url.netloc parsed <> "" ->
      Py.last_two (Py.split "." (Url.netloc parsed)) ∉ REDDIT_DOMAINS ->
      parse_reddit_url url = Ok url).
Proof.
  split.
  { intros Hp. unfold parse_reddit_url. rewrite Hp. reflexivity. }
  intros parsed Hp Habs Hdom. unfold parse_reddit_url. rewrite Hp.
  cbn [external mbind result_bind].
  assert (Hrel : negb (Py.truth (Url.scheme parsed)
                       || Py.truth (Url.netloc parsed)) = false).
  { destruct (Url.scheme parsed), (Url.netloc parsed); try reflexivity.
    destruct Habs; congruence. }
  rewrite Hrel.
  assert (Hex : existsb
            (fun d => bool_decide
               (d = Py.last_two (Py.split "." (Url.netloc parsed))))
            REDDIT_DOMAINS = false).
  { unfold REDDIT_DOMAINS in *. rewrite !not_elem_of_cons in Hdom.
    destruct Hdom as (H1 & H2 & _). simpl.
    rewrite !bool_decide_eq_false_2 by congruence. reflexivity. }
  rewrite Hex. reflexivity.
Qed.

(** X8.  A relative URL whose path is blank once trimmed (the empty URL, a
    bare [/], a bare query or fragment) is rewritten to [BASE_URL] followed
    by what is left of the path. *)
Theorem blank_relative_url (url : string) (parsed : Url.t) :
  urlparse url = Some parsed ->
  Url.scheme parsed = "" -> Url.netloc parsed = "" ->
  Py.strip "/" (Py.strip_ws (Url.path parsed)) = "" ->
  parse_reddit_url url = Ok (BASE_URL +:+ Py.lstrip "/" (Url.path parsed)).
Proof.
  intros Hp Hs Hn Hblank. unfold parse_reddit_url. rewrite Hp.
  cbn [external mbind result_bind]. rewrite Hs, Hn.
  change (negb (Py.truth "" || Py.truth "")) with true. cbv iota.
  unfold handle_request. rewrite Hblank. reflexivity.
Qed.

End ClassifierProperties.

(** ** Splitting and joining *)

Section SplitJoin.
Implicit Types (s a b : string) (sep : ascii).

Lemma startswith_app p s :
  Py.startswith p s = true <-> exists r, s = p +:+ r.
Proof.
  revert s. induction p as [|c p IH]; intros s.
  - split; [intros _; now exists s|reflexivity].
  - destruct s as [|d s]; cbn [Py.startswith].
    + split; [discriminate|intros [r [=]]].
    + destruct (Ascii.eqb_spec c d) as [->|Hc].
      * rewrite IH. split; intros [r Hr]; exists r; simpl in *; congruence.
      * split; [discriminate|]. intros [r [= ? ?]]. congruence.
Qed.

Lemma split_lacks sep a : lacks sep a = true -> Py.split sep a = [a].
Proof.
  induction a as [|c a IH]; [reflexivity|]. cbn [lacks Py.split].
  intros [Hc Ha]%andb_true_iff. apply negb_true_iff in Hc.
  now rewrite Hc, (IH Ha).
Qed.

Lemma split_app sep a b :
  lacks sep a = true ->
  Py.split sep (a +:+ String sep b) = a :: Py.split sep b.
Proof.
  induction a as [|c a IH]; cbn [lacks].
  - intros _. simpl. now rewrite Ascii.eqb_refl.
  - intros [Hc Ha]%andb_true_iff. apply negb_true_iff in Hc.
    simpl. now rewrite Hc, (IH Ha).
Qed.

Lemma split_app_r sep a b :
  lacks sep b = true ->
  Py.split sep (a +:+ String sep b) = Py.split sep a ++ [b].
Proof.
  intros Hb. induction a as [|c a IH]; simpl.
  - now rewrite Ascii.eqb_refl, (split_lacks _ _ Hb).
  - rewrite IH. destruct (Ascii.eqb c sep); [reflexivity|].
    destruct (split_cons sep a) as (t & ts & ->). reflexivity.
Qed.

Lemma join_cons sep_s a x l :
  Py.join sep_s (a :: x :: l) = a +:+ sep_s +:+ Py.join sep_s (x :: l).
Proof. reflexivity. Qed.

Lemma join_split sep s : Py.join (String sep "") (Py.split sep s) = s.
Proof.
  induction s as [|c s IH]; [reflexivity|]. cbn [Py.split].
  destruct (split_cons sep s) as (t & ts & E). rewrite E in *.
  destruct (Ascii.eqb_spec c sep) as [->|Hc].
  - rewrite join_cons, IH. reflexivity.
  - destruct ts as [|u ts].
    + simpl in *. now rewrite IH.
    + rewrite join_cons. rewrite join_cons in IH. rewrite <- IH. reflexivity.
Qed.

Lemma join_cons_ne sep_s a l :
  l <> [] -> Py.join sep_s (a :: l) = a +:+ sep_s +:+ Py.join sep_s l.
Proof. destruct l; [congruence|reflexivity]. Qed.

Lemma join_snoc sep_s l x :
  l <> [] -> Py.join sep_s (l ++ [x]) = Py.join sep_s l +:+ sep_s +:+ x.
Proof.
  intros Hl. induction l as [|a l IH]; [congruence|].
  destruct l as [|b l]; [reflexivity|].
  change ((a :: b :: l) ++ [x]) with (a :: ((b :: l) ++ [x])).
  rewrite join_cons_ne by (destruct l; discriminate).
  rewrite IH by discriminate.
  rewrite join_cons, !append_assoc. reflexivity.
Qed.

End SplitJoin.

(** ** The markdown adapter, further *)

Section MarkdownProperties.
Context {lib : PyLib} {env : Env}.

Lemma link_line_tokens line :
  Py.startswith "=> " line = true ->
  exists rest target more,
    line = "=> " +:+ rest
    /\ Py.split " " rest = target :: more
    /\ Py.split " " line = "=>" :: target :: more.
Proof.
  intros [rest ->]%startswith_app.
  destruct (split_cons " " rest) as (target & more & E).
  exists rest, target, more. split; [reflexivity|]. split; [exact E|].
  change ("=> " +:+ rest) with ("=>" +:+ String " " rest).
  now rewrite split_app, E.
Qed.

Lemma rewrite_line_link line rest target more :
  line = "=> " +:+ rest -> Py.split " " rest = target :: more ->
  rewrite_line line
  = u ← parse_reddit_url target; Ok (Py.join " " ("=>" :: u :: more)).
Proof.
  intros -> E. unfold rewrite_line.
  change (Py.startswith "#" ("=> " +:+ rest)
          || Py.startswith "##" ("=> " +:+ rest)) with false.
  change (Py.startswith "=> " ("=> " +:+ rest)) with true. cbv iota.
  change ("=> " +:+ rest) with ("=>" +:+ String " " rest).
  rewrite split_app, E by reflexivity. reflexivity.
Qed.

(** X9.  The index accesses of [parse_markdown] are always in range: a link
    line has a second token.  The adapter raises only when
    [parse_reddit_url] raises on the target of some link line, and with
    that exception. *)
Theorem parse_markdown_raises_with_classifier (md : string) (e : exn) :
  parse_markdown md = Raise e ->
  exists line target,
    line ∈ Py.split (Py.chr 10) (md2gemini md)
    /\ Py.startswith "=> " line = true
    /\ Py.split " " line !! 1 = Some target
    /\ parse_reddit_url target = Raise e.
Proof.
  rewrite parse_markdown_lines. intros H.
  apply mapM_Raise in H as (line & Hin & Hline).
  exists line. unfold rewrite_line in Hline.
  destruct (_ || _); [discriminate|].
  destruct (Py.startswith "=> " line) eqn:Hlink; [|discriminate].
  destruct (link_line_tokens _ Hlink) as (rest & target & more & Hl & Hr & Hs).
  exists target. rewrite Hs. repeat split; [exact Hin|].
  rewrite Hs in Hline. cbn [Py.getitem lookup list_lookup mbind result_bind] in Hline.
  simpl in Hline.
  destruct (parse_reddit_url target) as [u|e']; [discriminate|].
  now injection Hline as ->.
Qed.

(** X10.  When the adapter returns, it returns as many lines as the
    converter produced, and every line that is neither a heading nor a
    link line is unchanged. *)
Theorem parse_markdown_keeps_other_lines (md : string) (out : list string) :
  parse_markdown md = Ok out ->
  length out = length (Py.split (Py.chr 10) (md2gemini md))
  /\ (forall i line,
      Py.split (Py.chr 10) (md2gemini md) !! i = Some line ->
      Py.startswith "#" line = false -> Py.startswith "=> " line = false ->
      out !! i = Some line).
Proof.
  rewrite parse_markdown_lines. intros H. split.
  - exact (mapM_Ok_length _ _ _ H).
  - intros i line Hi Hh Hl.
    destruct (mapM_Ok_lookup _ _ _ _ _ H Hi) as (y & Hy & Hout).
    unfold rewrite_line in Hy. rewrite heading_condition, Hh, Hl in Hy.
    now injection Hy as <-.
Qed.

(** X11.  On a link line only the target changes: the line
    [=> target rest], where [target] has no space and [rest] is empty or
    begins with a space, becomes [=> u rest] for [u] the classified
    target. *)
Theorem link_line_keeps_label (target rest : string) :
  lacks " " target = true ->
  rest = "" \/ Py.startswith " " rest = true ->
  rewrite_line ("=> " +:+ target +:+ rest)
  = u ← parse_reddit_url target; Ok ("=> " +:+ u +:+ rest).
Proof.
  intros Ht [->|[label ->]%startswith_app].
  - rewrite append_nil_r.
    rewrite (rewrite_line_link _ target target []);
      [|reflexivity|now apply split_lacks].
    destruct (parse_reddit_url target) as [u|e]; [|reflexivity].
    simpl. now rewrite append_nil_r.
  - change (" " +:+ label) with (String " " label).
    rewrite (rewrite_line_link _ (target +:+ String " " label) target
               (Py.split " " label));
      [|reflexivity|now apply split_app].
    destruct (parse_reddit_url target) as [u|e]; [|reflexivity].
    cbn [mbind result_bind]. f_equal.
    destruct (split_cons " " label) as (t & ts & E). rewrite E.
    rewrite !join_cons, <- E, join_split. reflexivity.
Qed.

End MarkdownProperties.

(** ** Links between comments and submissions *)

Section PermalinkProperties.
Context {lib : PyLib} {env : Env}.

(** X12.  For a comment whose permalink, without its trailing slashes, is
    [base/id] with no slash in [id], the link to its submission is the
    classified [base]: the permalink without its last segment.  A comment
    whose parent is the submission gets this link as its parent link,
    flagged as a submission. *)
Theorem submission_url_drops_comment_id (c : Comment) (base id : string) :
  Py.rstrip "/" (c_permalink c) = base +:+ "/" +:+ id ->
  lacks "/" id = true ->
  get_submission_url c = parse_reddit_url base
  /\ (Py.startswith "t1_" (c_parent_id c) = false ->
      Py.startswith "t3_" (c_parent_id c) = true ->
      get_parent_url c = url ← parse_reddit_url base; Ok (url, true)).
Proof.
  intros Hperma Hid.
  assert (Hsub : get_submission_url c = parse_reddit_url base).
  { unfold get_submission_url. rewrite Hperma.
    change (base +:+ "/" +:+ id) with (base +:+ String "/" id).
    rewrite split_app_r by exact Hid.
    now rewrite removelast_snoc, join_split. }
  split; [exact Hsub|].
  intros H1 H3. unfold get_parent_url. now rewrite H1, H3, Hsub.
Qed.

(** X13.  For such a comment whose parent is a comment, the parent link is
    the classified [base/segment], where [segment] is the parent ID
    stripped of its leading [t], [1] and [_] characters, and it is flagged
    as a comment.  A parent ID with neither prefix raises the [ValueError]
    that quotes it. *)
Theorem parent_url_of_comment (c : Comment) (base id : string) :
  Py.rstrip "/" (c_permalink c) = base +:+ "/" +:+ id ->
  lacks "/" id = true ->
  (Py.startswith "t1_" (c_parent_id c) = true ->
   get_parent_url c
   = url ← parse_reddit_url
             (base +:+ "/" +:+ Py.lstrip "t1_" (c_parent_id c));
     Ok (url, false))
  /\ (Py.startswith "t1_" (c_parent_id c) = false ->
      Py.startswith "t3_" (c_parent_id c) = false ->
      get_parent_url c
      = Raise (ValueError ("Bad ID " +:+ QUOTE +:+ c_parent_id c +:+ QUOTE
                           +:+ ". Expecting it to start with t1_ or t3_."))).
Proof.
  intros Hperma Hid. split.
  - intros H1. unfold get_parent_url. rewrite H1, Hperma.
    change (base +:+ "/" +:+ id) with (base +:+ String "/" id).
    rewrite split_app_r by exact Hid.
    destruct (split_cons "/" base) as (t & ts & E).
    unfold Py.setlast. rewrite insert_last by (rewrite E; discriminate).
    rewrite removelast_snoc.
    replace (match Py.split "/" base ++ [id] with
             | [] => Raise IndexError
             | _ :: _ => Ok (Py.split "/" base ++ [Py.lstrip "t1_" (c_parent_id c)])
             end)
      with (Ok (Py.split "/" base ++ [Py.lstrip "t1_" (c_parent_id c)])
            : result (list string))
      by (rewrite E; reflexivity).
    cbn [mbind result_bind].
    rewrite join_snoc by (rewrite E; discriminate).
    now rewrite join_split.
  - intros H1 H3. unfold get_parent_url. now rewrite H1, H3.
Qed.

End PermalinkProperties.

(** ** The layout of the pages *)

Section PageLayouts.
Context {lib : PyLib} {env : Env} {reddit : Reddit}.

(** X14.  The page of a submission, for any number of top-level comments:
    the header with the true total and the shown count min(25, total), the
    rendered self-text if there is one, the [Comments] heading, and then
    one block per shown comment, or the placeholder line when the
    submission has no comment. *)
Theorem submission_page_layout (id : string) (sub : Submission)
    (forest : list Comment) :
  submission id = Some (sub, forest) ->
  display_submission id
  = (body ← (if Py.truth (s_selftext sub)
             then body ← parse_markdown (s_selftext sub); Ok (body ++ [""])
             else Ok []);
     items ← mapM (fun c => comment_summary c true) (take ITEM_LIMIT forest);
     Ok (submission_header sub (length forest) (min ITEM_LIMIT (length forest))
         ++ body ++ [""; "# Comments"; ""]
         ++ match forest with
            | [] => [NOTHING_HERE]
            | _ => blocks items
            end)).
Proof.
  intros Hsub. destruct forest as [|c forest].
  - unfold display_submission. rewrite Hsub.
    cbn [external mbind result_bind]. rewrite date_time_submission.
    cbn [mbind result_bind]. rewrite author_submission.
    destruct (Py.truth (s_selftext sub)); [|reflexivity].
    destruct (parse_markdown (s_selftext sub)) as [body|e]; [|reflexivity].
    cbn [mbind result_bind]. simpl. unfold submission_header. simpl.
    now rewrite <- !app_assoc.
  - rewrite (display_submission_lines _ _ _ Hsub) by discriminate.
    now rewrite length_take.
Qed.

(** X15.  The page of a comment, for any number of direct replies: the
    header with the true total and the shown count min(25, total), the link
    to the parent comment unless the parent is the submission, the body,
    the [Replies] heading, and one block per shown reply or the
    placeholder line. *)
Theorem comment_page_layout (id : string) (c : Comment) :
  comment id = Some c ->
  display_comment id
  = (body ← parse_markdown (c_body c);
     submission_url ← get_submission_url c;
     '(parent_url, is_submission) ← get_parent_url c;
     items ← mapM (fun r => comment_summary r true)
                  (take ITEM_LIMIT (c_replies c));
     Ok (comment_header c (length (c_replies c))
           (min ITEM_LIMIT (length (c_replies c))) submission_url
         ++ (if is_submission : bool then []
             else ["=> " +:+ parent_url +:+ " View parent comment"])
         ++ [""] ++ body ++ [""; ""; "# Replies"; ""]
         ++ match c_replies c with
            | [] => [NOTHING_HERE]
            | _ => blocks items
            end)).
Proof.
  intros Hc. destruct (c_replies c) as [|r replies] eqn:Hrep.
  - unfold display_comment. rewrite Hc.
    cbn [external mbind result_bind]. rewrite date_time_comment.
    cbn [mbind result_bind]. rewrite author_comment, Hrep.
    destruct (parse_markdown (c_body c)) as [body|e]; [|reflexivity].
    cbn [mbind result_bind].
    destruct (get_submission_url c) as [surl|e]; [|reflexivity].
    cbn [mbind result_bind].
    destruct (get_parent_url c) as [[purl is_sub]|e]; [|reflexivity].
    cbn [mbind result_bind]. simpl. unfold comment_header. simpl.
    destruct is_sub; simpl; now rewrite <- ?app_assoc.
  - rewrite (display_comment_lines _ _ Hc) by (rewrite Hrep; discriminate).
    now rewrite Hrep, length_take.
Qed.

Lemma comment_summary_plain (c : Comment) (summary : list string) :
  comment_summary c false = Ok summary ->
  exists url body,
    parse_reddit_url (c_permalink c) = Ok url
    /\ parse_markdown (c_body c) = Ok body
    /\ summary = ["=> " +:+ url +:+ " Comment by "
                  +:+ default "[deleted]" (c_author c) +:+ " at "
                  +:+ stamp (c_created_utc c) (c_edited c);
                  Py.str (c_score c) +:+ " upvotes";
                  ""] ++ body.
Proof.
  unfold comment_summary. rewrite date_time_comment, author_comment.
  cbn [mbind result_bind].
  destruct (parse_markdown (c_body c)) as [body|e]; [|discriminate].
  cbn [mbind result_bind].
  destruct (parse_reddit_url (c_permalink c)) as [url|e]; [|discriminate].
  cbn [mbind result_bind]. intros [= <-]. exists url, body.
  repeat split; reflexivity.
Qed.

(** X16.  The profile page of an account that is not suspended ([is_suspended]
    false or missing): the header, then at most 25 submission blocks under
    [Submissions] and at most 25 comment blocks under [Comments].  The
    second line of a comment block is the score alone, [n upvotes], without
    a count of replies.  A profile attribute that is missing raises
    [AttributeError]. *)
Theorem redditor_page_layout (name : string) (r : Redditor) :
  redditor name = Some r -> r_is_suspended r <> Some true ->
  (forall created link_karma comment_karma,
      r_created_utc r = Some created -> r_link_karma r = Some link_karma ->
      r_comment_karma r = Some comment_karma ->
      display_redditor name
      = (subs ← mapM submission_summary (take ITEM_LIMIT (r_submissions_new r));
         coms ← mapM (fun c => comment_summary c false)
                     (take ITEM_LIMIT (r_comments_new r));
         Ok (redditor_header name created link_karma comment_karma
             ++ ["# Submissions"; ""] ++ blocks subs
             ++ ["# Comments"; ""] ++ blocks coms)))
  /\ (r_created_utc r = None ->
      display_redditor name = Raise (AttributeError "created_utc"))
  /\ (forall created, r_created_utc r = Some created -> r_link_karma r = None ->
      display_redditor name = Raise (AttributeError "link_karma"))
  /\ (forall subs,
      mapM submission_summary (take ITEM_LIMIT (r_submissions_new r)) = Ok subs ->
      length subs = (length (r_submissions_new r) `min` ITEM_LIMIT)%nat)
  /\ (forall coms,
      mapM (fun c => comment_summary c false)
           (take ITEM_LIMIT (r_comments_new r)) = Ok coms ->
      length coms = (length (r_comments_new r) `min` ITEM_LIMIT)%nat
      /\ Forall2
           (fun c summary =>
              exists url body,
                parse_reddit_url (c_permalink c) = Ok url
                /\ parse_markdown (c_body c) = Ok body
                /\ summary
                   = ["=> " +:+ url +:+ " Comment by "
                      +:+ default "[deleted]" (c_author c) +:+ " at "
                      +:+ stamp (c_created_utc c) (c_edited c);
                      Py.str (c_score c) +:+ " upvotes";
                      ""] ++ body)
           (take ITEM_LIMIT (r_comments_new r)) coms).
Proof.
  intros Hr Hsus.
  assert (Hrun : display_redditor name
    = (timestamp ← date_time r true;
       link_karma ← getattr "link_karma" (r_link_karma r);
       comment_karma ← getattr "comment_karma" (r_comment_karma r);
       lines ← for_each extend_submission
                 (["# Redditor: " +:+ name;
                   "Redditor since " +:+ timestamp +:+ " (" +:+ Py.str link_karma
                   +:+ " link karma, " +:+ Py.str comment_karma
                   +:+ " comment karma)"; ""; "# Submissions"; ""])
                 (take ITEM_LIMIT (r_submissions_new r));
       for_each (extend_comment false) (lines ++ ["# Comments"; ""])
         (take ITEM_LIMIT (r_comments_new r)))).
  { unfold display_redditor. rewrite Hr. cbn [external mbind result_bind].
    destruct (r_is_suspended r) as [[|]|]; [congruence| |];
      (destruct (date_time r true) as [ts|e]; [|reflexivity];
       cbn [mbind result_bind];
       destruct (getattr "link_karma" _) as [lk|e]; [|reflexivity];
       cbn [mbind result_bind];
       destruct (getattr "comment_karma" _) as [ck|e]; [|reflexivity];
       cbn [mbind result_bind];
       change (Py.truth (submissions_new r ITEM_LIMIT)) with true;
       change (Py.truth (comments_new r ITEM_LIMIT)) with true; cbv iota;
       unfold iterate, submissions_new, comments_new;
       cbn [lg_limit lg_source app];
       destruct (for_each extend_submission _ _) as [lines|e]; [|reflexivity];
       cbn [mbind result_bind]; now rewrite <- !app_assoc). }
  split; [|split; [|split; [|split]]].
  - intros created lk ck Hc Hlk Hck. rewrite Hrun.
    unfold date_time. cbn [created_utc edited redditor_dated].
    rewrite Hc, Hlk, Hck. cbn [getattr mbind result_bind].
    rewrite extend_submission_eq, for_each_extend.
    destruct (mapM submission_summary _) as [subs|e]; [|reflexivity].
    cbn [mbind result_bind]. rewrite extend_comment_eq, for_each_extend.
    destruct (mapM _ _) as [coms|e]; [|reflexivity].
    cbn [mbind result_bind]. unfold redditor_header.
    f_equal. rewrite <- !app_assoc. reflexivity.
  - intros Hc. rewrite Hrun. unfold date_time.
    cbn [created_utc edited redditor_dated]. now rewrite Hc.
  - intros created Hc Hlk. rewrite Hrun. unfold date_time.
    cbn [created_utc edited redditor_dated]. now rewrite Hc, Hlk.
  - intros subs Hsubs. apply mapM_Ok_length in Hsubs.
    rewrite Hsubs, length_take. lia.
  - intros coms Hcoms. split.
    + apply mapM_Ok_length in Hcoms. rewrite Hcoms, length_take. lia.
    + apply mapM_Ok_Forall2 in Hcoms.
      eapply Forall2_impl; [exact Hcoms|].
      intros c summary. apply comment_summary_plain.
Qed.

End PageLayouts.

(** ** The blocks of a listing *)

Section Blocks.
Implicit Types (items : list (list string)) (item : list string).

Lemma blocks_cons item items :
  blocks (item :: items) = (item ++ [""]) ++ blocks items.
Proof. reflexivity. Qed.

Lemma blocks_length n items :
  Forall (fun item => length item = n) items ->
  length (blocks items) = S n * length items.
Proof.
  induction 1 as [|item items Hitem _ IH]; [simpl; lia|].
  rewrite blocks_cons, !length_app, IH, Hitem. simpl. lia.
Qed.

Lemma blocks_lookup n items k item :
  Forall (fun item => length item = n) items ->
  items !! k = Some item ->
  take (S n) (drop (S n * k) (blocks items)) = item ++ [""].
Proof.
  intros Hall. revert k. induction Hall as [|it items Hit _ IH]; intros k.
  - intros [=].
  - assert (Hlen : length (it ++ [""]) = S n)
      by (rewrite length_app, Hit; simpl; lia).
    rewrite blocks_cons. destruct k as [|k]; cbn [lookup list_lookup].
    + intros [= ->]. rewrite Nat.mul_0_r, drop_0.
      rewrite take_app_le by lia. apply take_ge. lia.
    + intros Hk. replace (S n * S k) with (length (it ++ [""]) + S n * k) by lia.
      rewrite drop_app_add. now apply IH.
Qed.

End Blocks.

Section SubredditStructure.
Context {lib : PyLib} {env : Env} {reddit : Reddit}.

(** The three lines of a submission summary. *)
Lemma submission_summary_Ok s summary :
  submission_summary s = Ok summary ->
  exists url parsed comments_url,
    parse_reddit_url (s_url s) = Ok url
    /\ urlparse (s_url s) = Some parsed
    /\ parse_reddit_url (s_permalink s) = Ok comments_url
    /\ summary
       = ["=> " +:+ url +:+ " " +:+ s_title s;
          "created by " +:+ default "[deleted]" (s_author s) +:+ " on "
          +:+ stamp (s_created_utc s) (s_edited s) +:+ " - "
          +:+ Py.str (s_score s) +:+ " upvotes (" +:+ Url.scheme parsed
          +:+ ", " +:+ Url.netloc parsed +:+ ")";
          "=> " +:+ comments_url +:+ " " +:+ Py.str (s_num_comments s)
          +:+ " comments"].
Proof.
  unfold submission_summary. intros H.
  apply bind_Ok in H as (url & Hurl & H).
  rewrite date_time_submission, author_submission in H.
  cbn [mbind result_bind] in H.
  apply bind_Ok in H as (parsed & Hparsed & H).
  apply bind_Ok in H as (curl & Hcurl & [= <-]).
  exists url, parsed, curl. repeat split; try assumption.
  destruct (urlparse (s_url s)); [|discriminate]. now injection Hparsed as ->.
Qed.

(** X17.  A subreddit page that is returned has the four header lines and
    then, for the first 25 submissions of the listing in the listing's
    order, four lines each: the link to the classified URL with the title,
    the line of author, date, score, scheme and host, the link to the
    thread with the number of comments, and an empty line. *)
Theorem subreddit_page_structure (name sortby : string) (limit : Z)
    (sr : Subreddit) (src : list Submission) (lines : list string) :
  subreddit name = Some sr -> listing_of sr sortby = Some src ->
  display_subreddit name sortby limit = Ok lines ->
  length lines = 4 + 4 * min ITEM_LIMIT (length src)
  /\ take 4 lines = subreddit_header sr
  /\ (forall k s, k < ITEM_LIMIT -> src !! k = Some s ->
      exists url parsed comments_url,
        parse_reddit_url (s_url s) = Ok url
        /\ urlparse (s_url s) = Some parsed
        /\ parse_reddit_url (s_permalink s) = Ok comments_url
        /\ take 4 (drop (4 + 4 * k) lines)
           = ["=> " +:+ url +:+ " " +:+ s_title s;
              "created by " +:+ default "[deleted]" (s_author s) +:+ " on "
              +:+ stamp (s_created_utc s) (s_edited s) +:+ " - "
              +:+ Py.str (s_score s) +:+ " upvotes (" +:+ Url.scheme parsed
              +:+ ", " +:+ Url.netloc parsed +:+ ")";
              "=> " +:+ comments_url +:+ " " +:+ Py.str (s_num_comments s)
              +:+ " comments";
              ""]).
Proof.
  intros Hsr Hsrc. rewrite (display_subreddit_lines _ _ _ _ _ Hsr Hsrc).
  intros H. apply bind_Ok in H as (items & Hitems & Hl).
  assert (Hlines : lines = subreddit_header sr ++ blocks items)
    by (now injection Hl).
  clear Hl. subst lines.
  assert (Hall : Forall (fun item => length item = 3) items).
  { apply Forall_lookup. intros i item Hi.
    pose proof (mapM_Ok_Forall2 _ _ _ Hitems) as HF.
    destruct (Forall2_lookup_r _ _ _ _ _ HF Hi) as (s & _ & Hs).
    apply submission_summary_Ok in Hs as (? & ? & ? & _ & _ & _ & ->).
    reflexivity. }
  split; [|split].
  - rewrite length_app, (blocks_length 3 _ Hall).
    rewrite (mapM_Ok_length _ _ _ Hitems), length_take. reflexivity.
  - reflexivity.
  - intros k s Hk Hs.
    assert (Htake : take ITEM_LIMIT src !! k = Some s)
      by (rewrite lookup_take_lt by exact Hk; exact Hs).
    destruct (mapM_Ok_lookup _ _ _ _ _ Hitems Htake) as (summary & Hsum & Hit).
    rewrite (drop_app_add (subreddit_header sr) (blocks items) (4 * k)).
    rewrite (blocks_lookup 3 _ _ _ Hall Hit).
    apply submission_summary_Ok in Hsum
      as (url & parsed & curl & Hu & Hp & Hc & ->).
    exists url, parsed, curl. repeat split; assumption.
Qed.

End SubredditStructure.

(** ** The SCGI entry point *)

Section EntryPointProperties.
Context {lib : PyLib} {env : Env} {reddit : Reddit}.

Lemma respond_not_generic pg path query b :
  respond pg path query b <> Ok (RBytes (bad_request GENERIC_ERR_MSG)).
Proof.
  intros H.
  assert (Hbad : is_bad_request b = true)
    by (apply (respond_bad_request pg path query); eauto).
  destruct b; try discriminate Hbad; revert H; unfold respond;
    apply RBytes_neq; intros H; apply (f_equal (take 4)) in H;
    vm_compute in H; discriminate H.
Qed.

(** X18.  Whatever the router does, the handler writes a response that
    begins with one of the four status codes.  It writes the generic
    bad-request response when [PATH_INFO] is missing, and otherwise exactly
    when the router raises. *)
Theorem produce_always_answers (path query : option string) :
  status (produce path query)
    ∈ [STATUS_SUCCESS; STATUS_REDIRECT; STATUS_INPUT; STATUS_BAD_REQUEST]
  /\ produce None query = bad_request GENERIC_ERR_MSG
  /\ (forall p,
      produce (Some p) query = bad_request GENERIC_ERR_MSG
      <-> raises (handle_request pages p (default "" query) false))
  /\ (forall p response,
      handle_request pages p (default "" query) false = Ok (RBytes response) ->
      produce (Some p) query = response).
Proof.
  assert (Hgen : status (bad_request GENERIC_ERR_MSG)
                 ∈ [STATUS_SUCCESS; STATUS_REDIRECT; STATUS_INPUT;
                    STATUS_BAD_REQUEST]).
  { rewrite status_bad_request, !elem_of_cons. tauto. }
  split; [|split; [reflexivity|split]].
  - destruct path as [p|]; [|exact Hgen]. unfold produce.
    destruct (handle_request pages p (default "" query) false) as [r|e] eqn:E;
      [|exact Hgen].
    destruct (proj2 (handle_request_returns _ _ _) r E) as (resp & -> & Hst).
    exact Hst.
  - intros p. unfold produce, raises.
    destruct (handle_request pages p (default "" query) false) as [r|e] eqn:E.
    + destruct (proj2 (handle_request_returns _ _ _) r E) as (resp & -> & _).
      cbn [mbind result_bind]. split.
      * intros ->. rewrite handle_request_live in E.
        apply bind_Ok in E as (b & _ & E).
        now apply respond_not_generic in E.
      * intros [e' [=]].
    + split; [eauto|reflexivity].
  - intros p response E. unfold produce. now rewrite E.
Qed.

End EntryPointProperties.

(** ** Module initialisation *)

Section Startup.
Context {Handle : Type}.
Implicit Types (environ : gmap string string) (host : Host Handle).

Lemma lstrip_by_id p s :
  (forall c r, s = String c r -> p c = false) -> Py.lstrip_by p s = s.
Proof.
  destruct s as [|c r]; [reflexivity|]. intros H. simpl.
  now rewrite (H c r eq_refl).
Qed.

Lemma rstrip_by_id p s :
  (forall r c, s = r +:+ String c "" -> p c = false) -> Py.rstrip_by p s = s.
Proof.
  induction s as [|a s IH]; [reflexivity|]. intros H. simpl.
  rewrite IH.
  - destruct s as [|b s]; [|reflexivity].
    now rewrite (H "" a eq_refl).
  - intros r c ->. apply (H (String a r) c). reflexivity.
Qed.

Lemma strip_ws_idempotent s : Py.strip_ws (Py.strip_ws s) = Py.strip_ws s.
Proof.
  unfold Py.strip_ws at 1.
  rewrite (rstrip_by_id Py.isspace (Py.strip_ws s)).
  - apply lstrip_by_id. intros c r. apply lstrip_by_head.
  - intros r c E. unfold Py.strip_ws in E.
    destruct (lstrip_by_suffix Py.isspace (Py.rstrip_by Py.isspace s))
      as (pre & Hpre).
    rewrite E, <- append_assoc in Hpre.
    exact (rstrip_by_last _ _ _ _ Hpre).
Qed.

Lemma startup_run environ host base_url praw_file :
  environ !! "REMINI_BASE_URL" = Some base_url ->
  environ !! "REMINI_PRAW_FILE" = Some praw_file ->
  startup environ host
  = match log_step environ host with
    | None => inl CannotOpenLog
    | Some _ =>
        match open_readlines host praw_file with
        | None => inl CannotOpen
        | Some [l1; l2; l3] =>
            match praw_Reddit host (Py.strip_ws l3) (Py.strip_ws l1)
                    (Py.strip_ws l2) with
            | None => inl CannotCreateClient
            | Some reddit =>
                inr ({| st_BASE_URL := base_url;
                        st_PRAW_FILE := praw_file;
                        st_LOG_FILE := environ !! "REMINI_LOG_FILE";
                        st_LANDING_PAGE := environ !! "REMINI_LANDING_PAGE";
                        st_CLIENT_ID := Py.strip_ws l1;
                        st_CLIENT_SECRET := Py.strip_ws l2;
                        st_USER_AGENT := Py.strip_ws l3 |}, reddit)
            end
        | Some _ => inl WrongLineCount
        end
    end.
Proof.
  intros Hb Hf. unfold startup, log_step. rewrite Hb, Hf.
  destruct (match environ !! "REMINI_LOG_FILE" with
            | Some name => if Py.truth name then basicConfig host name
                           else Some ()
            | None => Some ()
            end); [|reflexivity].
  destruct (open_readlines host praw_file) as [[|l1 [|l2 [|l3 [|l4 ls]]]]|];
    reflexivity.
Qed.

Lemma log_step_None environ host :
  log_step environ host = None <-> log_fails environ host.
Proof.
  unfold log_step, log_fails.
  destruct (environ !! "REMINI_LOG_FILE") as [name|].
  - destruct name as [|c name]; simpl.
    + split; [discriminate|]. intros (f & [= <-] & Hne & _). congruence.
    + split.
      * intros H. exists (String c name). repeat split; [discriminate|exact H].
      * intros (f & [= <-] & _ & H). exact H.
  - split; [discriminate|]. intros (f & [=] & _).
Qed.

(** X19.  Importing the module fails with the [RuntimeError] exactly when
    one of the two required variables is unset, whatever else holds.  With
    both set, it fails next exactly when [REMINI_LOG_FILE] is set to a
    non-empty name that [logging.basicConfig] cannot open; a log file that
    is unset or empty is not opened.  Past that, it fails when the PRAW
    file cannot be read, when it does not have exactly three lines, or when
    [praw.Reddit] refuses the credentials, which it is given as user agent,
    client id and client secret from the third, first and second line;
    otherwise it succeeds with the handle [praw.Reddit] returned, the three
    credentials are the lines of the file without surrounding white space,
    and the two optional variables are taken as they are. *)
Theorem startup_outcome environ host :
  (startup environ host = inl MissingVariable
   <-> environ !! "REMINI_BASE_URL" = None
       \/ environ !! "REMINI_PRAW_FILE" = None)
  /\ (forall base_url praw_file,
      environ !! "REMINI_BASE_URL" = Some base_url ->
      environ !! "REMINI_PRAW_FILE" = Some praw_file ->
      (startup environ host = inl CannotOpenLog <-> log_fails environ host)
      /\ (~ log_fails environ host ->
          (startup environ host = inl CannotOpen
           <-> open_readlines host praw_file = None)
          /\ (startup environ host = inl WrongLineCount
              <-> exists lines, open_readlines host praw_file = Some lines
                                /\ length lines <> 3)
          /\ (startup environ host = inl CannotCreateClient
              <-> exists l1 l2 l3,
                    open_readlines host praw_file = Some [l1; l2; l3]
                    /\ praw_Reddit host (Py.strip_ws l3) (Py.strip_ws l1)
                         (Py.strip_ws l2) = None)
          /\ (forall st reddit, startup environ host = inr (st, reddit)
              <-> exists l1 l2 l3,
                    open_readlines host praw_file = Some [l1; l2; l3]
                    /\ praw_Reddit host (Py.strip_ws l3) (Py.strip_ws l1)
                         (Py.strip_ws l2) = Some reddit
                    /\ st = {| st_BASE_URL := base_url;
                               st_PRAW_FILE := praw_file;
                               st_LOG_FILE := environ !! "REMINI_LOG_FILE";
                               st_LANDING_PAGE :=
                                 environ !! "REMINI_LANDING_PAGE";
                               st_CLIENT_ID := Py.strip_ws l1;
                               st_CLIENT_SECRET := Py.strip_ws l2;
                               st_USER_AGENT := Py.strip_ws l3 |})))
  /\ (forall st reddit, startup environ host = inr (st, reddit) ->
      ~ log_fails environ host
      /\ Py.strip_ws (st_CLIENT_ID st) = st_CLIENT_ID st
      /\ Py.strip_ws (st_CLIENT_SECRET st) = st_CLIENT_SECRET st
      /\ Py.strip_ws (st_USER_AGENT st) = st_USER_AGENT st).
Proof.
  split; [|split].
  - destruct (environ !! "REMINI_BASE_URL") as [b|] eqn:Hb;
      destruct (environ !! "REMINI_PRAW_FILE") as [f|] eqn:Hf.
    + rewrite (startup_run _ _ _ _ Hb Hf). split; [|intros [|]; discriminate].
      destruct (log_step environ host); [|discriminate].
      destruct (open_readlines host f) as [[|l1 [|l2 [|l3 [|l4 ls]]]]|];
        try discriminate.
      destruct (praw_Reddit host _ _ _); discriminate.
    + unfold startup. rewrite Hb, Hf. split; [now right|reflexivity].
    + unfold startup. rewrite Hb. split; [now left|reflexivity].
    + unfold startup. rewrite Hb. split; [now left|reflexivity].
  - intros b f Hb Hf. rewrite (startup_run _ _ _ _ Hb Hf). split.
    + rewrite <- log_step_None.
      destruct (log_step environ host); [|split; reflexivity].
      split; [|discriminate].
      destruct (open_readlines host f) as [[|l1 [|l2 [|l3 [|l4 ls]]]]|];
        try discriminate.
      destruct (praw_Reddit host _ _ _); discriminate.
    + rewrite <- log_step_None. intros Hlog.
      destruct (log_step environ host) as [u|]; [|congruence]. clear Hlog.
      destruct (open_readlines host f) as [lines|];
        (split; [|split; [|split]]).
      * split; [|discriminate].
        destruct lines as [|l1 [|l2 [|l3 [|? ?]]]]; try discriminate.
        destruct (praw_Reddit host _ _ _); discriminate.
      * split.
        -- intros H. exists lines. split; [reflexivity|].
           destruct lines as [|l1 [|l2 [|l3 [|? ?]]]]; simpl; try lia.
           destruct (praw_Reddit host _ _ _); discriminate H.
        -- intros (l & [= <-] & Hlen).
           destruct lines as [|? [|? [|? [|? ?]]]]; try reflexivity.
           simpl in Hlen. lia.
      * split.
        -- destruct lines as [|l1 [|l2 [|l3 [|l4 ls]]]]; try discriminate.
           destruct (praw_Reddit host _ _ _) eqn:Hr; [discriminate|].
           intros _. exists l1, l2, l3. split; [reflexivity|exact Hr].
        -- intros (l1 & l2 & l3 & [= ->] & ->). reflexivity.
      * intros st reddit. split.
        -- destruct lines as [|l1 [|l2 [|l3 [|l4 ls]]]]; try discriminate.
           destruct (praw_Reddit host _ _ _) eqn:Hr; [|discriminate].
           intros [= <- <-]. exists l1, l2, l3.
           split; [reflexivity|]. split; [exact Hr|reflexivity].
        -- intros (l1 & l2 & l3 & [= ->] & -> & ->). reflexivity.
      * split; reflexivity.
      * split; [discriminate|]. intros (l & [=] & _).
      * split; [discriminate|]. intros (? & ? & ? & [=] & _).
      * intros st reddit. split; [discriminate|].
        intros (? & ? & ? & [=] & _).
  - intros st reddit H.
    destruct (environ !! "REMINI_BASE_URL") as [b|] eqn:Hb;
      [|unfold startup in H; rewrite Hb in H; discriminate].
    destruct (environ !! "REMINI_PRAW_FILE") as [f|] eqn:Hf;
      [|unfold startup in H; rewrite Hb, Hf in H; discriminate].
    rewrite (startup_run _ _ _ _ Hb Hf) in H.
    rewrite <- log_step_None.
    destruct (log_step environ host); [|discriminate].
    split; [discriminate|].
    destruct (open_readlines host f) as [[|l1 [|l2 [|l3 [|l4 ls]]]]|];
      try discriminate.
    destruct (praw_Reddit host _ _ _); [|discriminate].
    injection H as <- _.
    cbn [st_CLIENT_ID st_CLIENT_SECRET st_USER_AGENT].
    repeat split; apply strip_ws_idempotent.
Qed.

End Startup.

(** ** The claims on concrete requests *)

#[local] Existing Instance reflib.
#[local] Existing Instance refenv.
#[local] Existing Instance World.reddit.

Example check_only_runs :
  handle_request pages "/r/test/comments/abc/hello/t5abc/" "" true = Ok (RBool true)
  /\ handle_request pages "/r/test/comments" "" true = Ok (RBool false)
  /\ handle_request pages "/u/someuser/posts" "" true = Ok (RBool false)
  /\ handle_request pages " /x/y " "" true = Ok (RBool false)
  /\ handle_request pages "/%2F" "" true = Raise IndexError
  /\ handle_request pages "/%2F" "" false = Raise IndexError.
Proof. repeat split. Qed.

Example select_runs :
  select "/r/test/comments/abc/hello/t5abc/" = Ok (CommentThread "t5abc")
  /\ select "/r/test/comments/abc" = Ok (SubmissionThread "abc")
  /\ select "/r/test/" = Ok (SubredditListing "test")
  /\ select "/r/test/comments" = Ok BadShape
  /\ select "/x/y" = Ok UnknownCommand
  /\ select "//" = Ok Landing.
Proof. repeat split. Qed.

Example live_runs :
  handle_request pages "/r/" "foo" false
    = Ok (RBytes (Py.encode ("31 gemini://remini.example/r/foo" +:+ CR +:+ LF)))
  /\ handle_request pages "/x/y" "" false
    = Ok (RBytes (bad_request ("Couldn't parse path " +:+ QUOTE +:+ "x/y"
                                +:+ QUOTE +:+ ".")))
  /\ handle_request pages "" "" false
    = Ok (RBytes (Py.encode ("20 text/gemini" +:+ CR +:+ LF +:+ NO_LANDING_PAGE
                             +:+ LF)))
  /\ handle_request pages "/u/someuser" "" false
    = Ok (RBytes (ok ["# Redditor: someuser"; "User is banned or suspended."] true)).
Proof. repeat split. Qed.

Lemma display_subreddit_ignores_limit_witness :
  exists lines items,
    display_subreddit "test" "hot" 10 = Ok lines
    /\ length items = 11
    /\ lines = subreddit_header World.test ++ blocks items.
Proof.
  assert (Hsr : subreddit "test" = Some World.test) by reflexivity.
  assert (Hsrc : listing_of World.test "hot" = Some (replicate 11 World.hello))
    by reflexivity.
  destruct (display_subreddit_ignores_limit "test" "hot" 10 World.test
              (replicate 11 World.hello) Hsr Hsrc) as (_ & _ & Hcount).
  assert (exists lines, display_subreddit "test" "hot" 10 = Ok lines)
    as [lines E] by (eexists; vm_compute; reflexivity).
  destruct (Hcount lines E) as (items & Hlen & Hlines).
  exists lines, items. split; [exact E|]. split; [exact Hlen|exact Hlines].
Defined.

Lemma empty_listing_has_no_placeholder_witness :
  display_subreddit "quiet" "hot" 10 = Ok (subreddit_header World.quiet)
  /\ display_redditor "lurker"
     = Ok (redditor_header "lurker" 1200000000 1 0
           ++ ["# Submissions"; ""; "# Comments"; ""]).
Proof.
  destruct empty_listing_has_no_placeholder as [Hsub Hred]. split.
  - apply (Hsub "quiet" "hot" 10%Z World.quiet); reflexivity.
  - apply (Hred "lurker" World.lurker); try reflexivity. discriminate.
Defined.

Lemma pagination_cap_witness :
  (exists lines,
      display_submission "abc" = Ok lines
      /\ lines !! 3 = Some "7 upvotes, 26 top-level comments (showing 25)")
  /\ (exists lines,
      display_comment "t5abc" = Ok lines
      /\ lines !! 1 = Some "3 upvotes, 26 direct replies (showing 25)").
Proof.
  destruct pagination_cap as [Hsub Hcom]. split.
  - assert (Hfetch : submission "abc"
                       = Some (World.hello, replicate 26 World.nice))
      by reflexivity.
    destruct (Hsub "abc" World.hello (replicate 26 World.nice) Hfetch)
      as [_ Hlines]; [unfold ITEM_LIMIT; simpl; lia|].
    assert (exists lines, display_submission "abc" = Ok lines)
      as [lines E] by (eexists; vm_compute; reflexivity).
    exists lines. split; [exact E|]. exact (proj1 (Hlines lines E)).
  - assert (Hfetch : comment "t5abc" = Some World.thread) by reflexivity.
    destruct (Hcom "t5abc" World.thread Hfetch) as [_ Hlines];
      [unfold ITEM_LIMIT; simpl; lia|].
    assert (exists lines, display_comment "t5abc" = Ok lines)
      as [lines E] by (eexists; vm_compute; reflexivity).
    exists lines. split; [exact E|]. exact (proj1 (Hlines lines E)).
Defined.

Lemma suspended_redditor_witness :
  display_redditor "someuser"
  = Ok ["# Redditor: someuser"; "User is banned or suspended."].
Proof.
  apply (suspended_redditor "someuser" World.someuser); reflexivity.
Defined.


Lemma heading_marker_prepended_witness :
  parse_markdown "### Deep" = Ok ["#### Deep"]
  /\ ["#### Deep"] !! 0 = Some ("#" +:+ "### Deep").
Proof.
  destruct (heading_marker_prepended "### Deep") as (_ & _ & _ & _ & Hlook).
  split; [reflexivity|].
  apply (Hlook ["#### Deep"] 0 "### Deep"); reflexivity.
Defined.

Lemma parent_link_strips_characters_witness :
  get_parent_url World.reply
  = Ok ("gemini://remini.example/r/test/comments/abc/hello/5abc", false)
  /\ Py.lstrip "t1_" "t1_t5abc" = "5abc".
Proof.
  assert (Hpid : c_parent_id World.reply = "t1_" +:+ "t5abc") by reflexivity.
  destruct (parent_link_strips_characters World.reply "t5abc" Hpid)
    as (Hurl & Hseg & _).
  split; [rewrite Hurl; reflexivity|exact Hseg].
Defined.

(** ** The further properties on concrete requests *)

Lemma handle_request_returns_witness :
  (exists b, RBool false = RBool b)
  /\ (exists response,
        RBytes (bad_request ("Request invalid or not supported: "
                             +:+ "r/test/comments")) = RBytes response
        /\ status response
           ∈ [STATUS_SUCCESS; STATUS_REDIRECT; STATUS_INPUT; STATUS_BAD_REQUEST]).
Proof.
  destruct (handle_request_returns pages "/r/test/comments" "") as [Hc Hl].
  split; [apply Hc|apply Hl]; reflexivity.
Defined.

Lemma router_index_error_witness :
  handle_request pages "/%2F/" "" true = Raise IndexError
  /\ handle_request pages "/%2F/" "" false = Raise IndexError.
Proof.
  destruct (router_index_error pages "/%2F/" "") as (Hiff & _ & Hlive).
  assert (H : handle_request pages "/%2F/" "" true = Raise IndexError).
  { apply Hiff. split; [discriminate|right; reflexivity]. }
  split; [exact H|exact (Hlive H)].
Defined.

Lemma query_is_read_for_bare_commands_witness :
  handle_request pages "/r/test" "a" false
    = handle_request pages "/r/test" "b" false
  /\ handle_request pages "/r/" "foo" false
     = Ok (RBytes (redirect (BASE_URL +:+ "r/" +:+ "foo") true))
  /\ handle_request pages "/u/" "" false
     = Ok (RBytes (get_input "Enter Redditor name:")).
Proof.
  destruct (query_is_read_for_bare_commands pages "/r/test" "a" "b")
    as (_ & Hsame & _).
  destruct (query_is_read_for_bare_commands pages "/r/" "foo" "")
    as (_ & _ & Hr & _).
  destruct (query_is_read_for_bare_commands pages "/u/" "" "")
    as (_ & _ & _ & Hu).
  assert (Hne : Py.strip "/" (Py.strip_ws "/r/") <> "") by discriminate.
  assert (Hne' : Py.strip "/" (Py.strip_ws "/u/") <> "") by discriminate.
  assert (Htr : request_tokens (Py.strip "/" (Py.strip_ws "/r/")) = Ok ["r"])
    by reflexivity.
  assert (Htu : request_tokens (Py.strip "/" (Py.strip_ws "/u/")) = Ok ["u"])
    by reflexivity.
  assert (Ht1 : request_tokens (Py.strip "/" (Py.strip_ws "/r/test"))
                <> Ok ["r"]) by discriminate.
  assert (Ht2 : request_tokens (Py.strip "/" (Py.strip_ws "/r/test"))
                <> Ok ["u"]) by discriminate.
  split; [exact (Hsame Ht1 Ht2)|]. split; [exact (Hr Hne Htr)|exact (Hu Hne' Htu)].
Defined.

Lemma unsupported_path_is_echoed_witness :
  handle_request pages " /x/y/ " "" false
  = Ok (RBytes (bad_request ("Couldn't parse path " +:+ QUOTE +:+ "x/y"
                             +:+ QUOTE +:+ "."))).
Proof.
  assert (Hcheck : handle_request pages " /x/y/ " "" true = Ok (RBool false))
    by reflexivity.
  destruct (proj1 (unsupported_path_is_echoed pages " /x/y/ " "") Hcheck)
    as [H|H]; [discriminate H|exact H].
Defined.

Lemma thread_urls_use_ids_only_witness :
  handle_request pages "/r/test/comments/abc/hello/t5abc/" "" false
  = handle_request pages "/r/other/comments/zzz/bye/t5abc/more" "" false
  /\ handle_request pages "/r/test/comments/abc/hello" "" false
     = handle_request pages "/r/other/comments/abc" "" false.
Proof.
  assert (Hn1 : Py.strip "/" (Py.strip_ws "/r/test/comments/abc/hello/t5abc/")
                <> "") by discriminate.
  assert (Hn2 : Py.strip "/" (Py.strip_ws "/r/other/comments/zzz/bye/t5abc/more")
                <> "") by discriminate.
  assert (Hn3 : Py.strip "/" (Py.strip_ws "/r/test/comments/abc/hello") <> "")
    by discriminate.
  assert (Hn4 : Py.strip "/" (Py.strip_ws "/r/other/comments/abc") <> "")
    by discriminate.
  assert (Ht1 : request_tokens
                  (Py.strip "/" (Py.strip_ws "/r/test/comments/abc/hello/t5abc/"))
                = Ok ["r"; "test"; "comments"; "abc"; "hello"; "t5abc"])
    by reflexivity.
  assert (Ht2 : request_tokens
                  (Py.strip "/"
                     (Py.strip_ws "/r/other/comments/zzz/bye/t5abc/more"))
                = Ok ["r"; "other"; "comments"; "zzz"; "bye"; "t5abc"; "more"])
    by reflexivity.
  assert (Ht3 : request_tokens
                  (Py.strip "/" (Py.strip_ws "/r/test/comments/abc/hello"))
                = Ok ["r"; "test"; "comments"; "abc"; "hello"])
    by reflexivity.
  assert (Ht4 : request_tokens
                  (Py.strip "/" (Py.strip_ws "/r/other/comments/abc"))
                = Ok ["r"; "other"; "comments"; "abc"])
    by reflexivity.
  destruct (thread_urls_use_ids_only pages _ _ "" false Hn1 Hn2) as [Hc _].
  destruct (thread_urls_use_ids_only pages _ _ "" false Hn3 Hn4) as [_ Hs].
  split.
  - exact (proj1 (Hc "test" "other" "abc" "zzz" "hello" "bye" "t5abc" []
                    ["more"] Ht1 Ht2)).
  - assert (Hl1 : length ["hello"] <= 1) by (simpl; lia).
    assert (Hl2 : length (@nil string) <= 1) by (simpl; lia).
    exact (proj1 (Hs "test" "other" "abc" ["hello"] [] Hl1 Hl2 Ht3 Ht4)).
Defined.

Lemma parse_reddit_url_result_witness :
  parse_reddit_url "https://old.reddit.com//r/test/?sort=new#top"
  = Ok "gemini://remini.example/r/test/"
  /\ parse_reddit_url "https://www.reddit.com/wiki/index"
     = Ok "https://www.reddit.com/wiki/index".
Proof.
  assert (Hp1 : urlparse "https://old.reddit.com//r/test/?sort=new#top"
                = Some (Url.Parsed "https" "old.reddit.com" "//r/test/"
                          "sort=new")) by reflexivity.
  assert (Hp2 : urlparse "https://www.reddit.com/wiki/index"
                = Some (Url.Parsed "https" "www.reddit.com" "/wiki/index" ""))
    by reflexivity.
  destruct (parse_reddit_url_result _ _ Hp1) as (_ & _ & Hyes & _).
  destruct (parse_reddit_url_result _ _ Hp2) as (_ & _ & _ & Hno).
  split.
  - apply (Hyes pages); reflexivity.
  - apply (Hno pages). right. reflexivity.
Defined.

Lemma foreign_url_unchanged_witness :
  parse_reddit_url "http://[x/r/test" = Raise External
  /\ parse_reddit_url "https://reddit.com.example.org/%2F"
     = Ok "https://reddit.com.example.org/%2F".
Proof.
  split.
  - assert (Hp : urlparse "http://[x/r/test" = None) by reflexivity.
    exact (proj1 (foreign_url_unchanged _) Hp).
  - assert (Hp : urlparse "https://reddit.com.example.org/%2F"
                 = Some (Url.Parsed "https" "reddit.com.example.org"
                           "/%2F" ""))
      by reflexivity.
    assert (Habs : Url.scheme (Url.Parsed "https" "reddit.com.example.org"
                                 "/%2F" "") <> ""
                   \/ Url.netloc (Url.Parsed "https" "reddit.com.example.org"
                                    "/%2F" "") <> "")
      by (left; discriminate).
    assert (Hdom : Py.last_two
                     (Py.split "."
                        (Url.netloc (Url.Parsed "https"
                                       "reddit.com.example.org" "/%2F" "")))
                   ∉ REDDIT_DOMAINS).
    { unfold REDDIT_DOMAINS. rewrite !not_elem_of_cons.
      repeat split; try discriminate. apply not_elem_of_nil. }
    exact (proj2 (foreign_url_unchanged _) _ Hp Habs Hdom).
Defined.

Lemma blank_relative_url_witness :
  parse_reddit_url "" = Ok "gemini://remini.example/"
  /\ parse_reddit_url "/?q#top" = Ok "gemini://remini.example/".
Proof.
  assert (Hp1 : urlparse "" = Some (Url.Parsed "" "" "" "")) by reflexivity.
  assert (Hp2 : urlparse "/?q#top" = Some (Url.Parsed "" "" "/" "q"))
    by reflexivity.
  split.
  - rewrite (blank_relative_url _ _ Hp1); reflexivity.
  - rewrite (blank_relative_url _ _ Hp2); reflexivity.
Defined.

Lemma parse_markdown_raises_with_classifier_witness :
  exists line target,
    line ∈ Py.split (Py.chr 10) (md2gemini "=> %2F elsewhere")
    /\ Py.startswith "=> " line = true
    /\ Py.split " " line !! 1 = Some target
    /\ parse_reddit_url target = Raise IndexError.
Proof.
  assert (Hrun : parse_markdown "=> %2F elsewhere" = Raise IndexError)
    by reflexivity.
  exact (parse_markdown_raises_with_classifier _ _ Hrun).
Defined.

Lemma parse_markdown_keeps_other_lines_witness :
  length ["#### Deep"; "plain => words"]
  = length (Py.split (Py.chr 10) (md2gemini ("### Deep" +:+ LF +:+ "plain => words")))
  /\ ["#### Deep"; "plain => words"] !! 1 = Some "plain => words".
Proof.
  assert (Hrun : parse_markdown ("### Deep" +:+ LF +:+ "plain => words")
                 = Ok ["#### Deep"; "plain => words"]) by reflexivity.
  destruct (parse_markdown_keeps_other_lines _ _ Hrun) as [Hlen Hkeep].
  split; [exact Hlen|].
  assert (Hi : Py.split (Py.chr 10)
                 (md2gemini ("### Deep" +:+ LF +:+ "plain => words")) !! 1
               = Some "plain => words") by reflexivity.
  assert (Hh : Py.startswith "#" "plain => words" = false) by reflexivity.
  assert (Hl : Py.startswith "=> " "plain => words" = false) by reflexivity.
  exact (Hkeep 1 "plain => words" Hi Hh Hl).
Defined.

Lemma link_line_keeps_label_witness :
  rewrite_line "=> /r/test/comments/abc the thread"
  = Ok "=> gemini://remini.example/r/test/comments/abc the thread".
Proof.
  assert (Ht : lacks " " "/r/test/comments/abc" = true) by reflexivity.
  assert (Hr : " the thread" = ""
               \/ Py.startswith " " " the thread" = true)
    by (right; reflexivity).
  pose proof (link_line_keeps_label "/r/test/comments/abc" " the thread" Ht Hr)
    as H.
  etransitivity; [exact H|reflexivity].
Defined.

Lemma submission_url_drops_comment_id_witness :
  get_submission_url World.nice
  = Ok "gemini://remini.example/r/test/comments/abc/hello"
  /\ get_parent_url World.nice
     = Ok ("gemini://remini.example/r/test/comments/abc/hello", true).
Proof.
  assert (Hperma : Py.rstrip "/" (c_permalink World.nice)
                   = "/r/test/comments/abc/hello" +:+ "/" +:+ "t5abc")
    by reflexivity.
  assert (Hid : lacks "/" "t5abc" = true) by reflexivity.
  destruct (submission_url_drops_comment_id World.nice _ _ Hperma Hid)
    as [Hsub Hparent].
  split; [rewrite Hsub; reflexivity|].
  rewrite Hparent; reflexivity.
Defined.

Lemma parent_url_of_comment_witness :
  get_parent_url World.reply
  = Ok ("gemini://remini.example/r/test/comments/abc/hello/5abc", false).
Proof.
  assert (Hperma : Py.rstrip "/" (c_permalink World.reply)
                   = "/r/test/comments/abc/hello" +:+ "/" +:+ "k2")
    by reflexivity.
  assert (Hid : lacks "/" "k2" = true) by reflexivity.
  destruct (parent_url_of_comment World.reply _ _ Hperma Hid) as [Hcomment _].
  rewrite Hcomment; reflexivity.
Defined.

Lemma submission_page_layout_witness :
  exists items,
    display_submission "abc"
    = Ok (submission_header World.hello 26 25 ++ [""; "# Comments"; ""]
          ++ blocks items)
    /\ length items = 25.
Proof.
  assert (Hfetch : submission "abc" = Some (World.hello, replicate 26 World.nice))
    by reflexivity.
  pose proof (submission_page_layout "abc" World.hello _ Hfetch) as Heq.
  assert (exists items,
             mapM (fun c => comment_summary c true)
                  (take ITEM_LIMIT (replicate 26 World.nice)) = Ok items
             /\ length items = 25)
    as (items & Hitems & Hlen) by (eexists; split; vm_compute; reflexivity).
  exists items. split; [|exact Hlen].
  rewrite Heq, Hitems. reflexivity.
Defined.

Lemma comment_page_layout_witness :
  exists body,
    display_comment "k2"
    = Ok (comment_header World.reply 0 0
            "gemini://remini.example/r/test/comments/abc/hello"
          ++ ["=> gemini://remini.example/r/test/comments/abc/hello/5abc"
              +:+ " View parent comment"]
          ++ [""] ++ body ++ [""; ""; "# Replies"; ""] ++ [NOTHING_HERE]).
Proof.
  assert (Hfetch : comment "k2" = Some World.reply) by reflexivity.
  exists ["indeed"]. rewrite (comment_page_layout "k2" World.reply Hfetch).
  reflexivity.
Defined.

Lemma redditor_page_layout_witness :
  @display_redditor reflib refenv Remote.reddit "poster"
  = Ok ["# Redditor: poster";
        "Redditor since 10/01/2008 (10 link karma, 20 comment karma)";
        "";
        "# Submissions";
        "";
        "=> https://example.com/a Hello";
        "created by alice on 13/02/2009 at 23:31 UTC - 7 upvotes (https, example.com)";
        "=> gemini://remini.example/r/test/comments/abc/hello/ 26 comments";
        "";
        "# Comments";
        "";
        "=> gemini://remini.example/r/test/comments/abc/hello/k9/ Comment by carol at 13/02/2009 at 23:31 UTC";
        "5 upvotes";
        "";
        "I agree";
        ""]
  /\ @display_redditor reflib refenv Remote.reddit "ghost"
     = Raise (AttributeError "created_utc")
  /\ @display_redditor reflib refenv Remote.reddit "nokarma"
     = Raise (AttributeError "link_karma")
  /\ length (c_replies Remote.answer) = 2%nat
  /\ Forall2 (fun c summary =>
                summary !! 1%nat = Some (Py.str (c_score c) +:+ " upvotes"))
       [Remote.answer]
       [["=> gemini://remini.example/r/test/comments/abc/hello/k9/ Comment by carol at 13/02/2009 at 23:31 UTC";
         "5 upvotes"; ""; "I agree"]].
Proof.
  assert (Hposter : @redditor Remote.reddit "poster" = Some Remote.poster)
    by reflexivity.
  assert (Hghost : @redditor Remote.reddit "ghost" = Some Remote.ghost)
    by reflexivity.
  assert (Hnokarma : @redditor Remote.reddit "nokarma" = Some Remote.nokarma)
    by reflexivity.
  assert (Hactive : r_is_suspended Remote.poster <> Some true)
    by discriminate.
  assert (Hunknown : r_is_suspended Remote.ghost <> Some true)
    by discriminate.
  assert (Hactive' : r_is_suspended Remote.nokarma <> Some true)
    by discriminate.
  destruct (@redditor_page_layout reflib refenv Remote.reddit
              "poster" Remote.poster Hposter Hactive)
    as (Hlayout & _ & _ & _ & Hcoms).
  destruct (@redditor_page_layout reflib refenv Remote.reddit
              "ghost" Remote.ghost Hghost Hunknown)
    as (_ & Hcreated & _).
  destruct (@redditor_page_layout reflib refenv Remote.reddit
              "nokarma" Remote.nokarma Hnokarma Hactive')
    as (_ & _ & Hkarma & _).
  split; [|split; [|split; [|split; [reflexivity|]]]].
  - assert (Hc : r_created_utc Remote.poster = Some 1200000000%Z)
      by reflexivity.
    assert (Hlk : r_link_karma Remote.poster = Some 10%Z) by reflexivity.
    assert (Hck : r_comment_karma Remote.poster = Some 20%Z) by reflexivity.
    rewrite (Hlayout _ _ _ Hc Hlk Hck); reflexivity.
  - apply Hcreated. reflexivity.
  - assert (Hc : r_created_utc Remote.nokarma = Some 1200000000%Z)
      by reflexivity.
    apply (Hkarma _ Hc). reflexivity.
  - assert (Hrun : mapM (fun c => @comment_summary reflib refenv c false)
                     (take ITEM_LIMIT (r_comments_new Remote.poster))
                   = Ok [["=> gemini://remini.example/r/test/comments/abc/hello/k9/ Comment by carol at 13/02/2009 at 23:31 UTC";
                          "5 upvotes"; ""; "I agree"]])
      by reflexivity.
    destruct (Hcoms _ Hrun) as [_ Hshape].
    eapply Forall2_impl; [exact Hshape|].
    intros c summary (url & body & _ & _ & ->). reflexivity.
Defined.

Lemma subreddit_page_structure_witness :
  exists lines,
    display_subreddit "test" "top" 10 = Ok lines
    /\ length lines = 104
    /\ take 4 (drop (4 + 4 * 24) lines)
       = ["=> https://example.com/a Hello";
          "created by alice on 13/02/2009 at 23:31 UTC - 7 upvotes (https, example.com)";
          "=> gemini://remini.example/r/test/comments/abc/hello/ 26 comments";
          ""].
Proof.
  assert (Hsr : subreddit "test" = Some World.test) by reflexivity.
  assert (Hsrc : listing_of World.test "top" = Some (replicate 30 World.hello))
    by reflexivity.
  assert (exists lines, display_subreddit "test" "top" 10 = Ok lines)
    as [lines E] by (eexists; vm_compute; reflexivity).
  destruct (subreddit_page_structure "test" "top" 10 World.test _ lines
              Hsr Hsrc E) as (Hlen & _ & Hblock).
  exists lines. split; [exact E|]. split; [exact Hlen|].
  destruct (Hblock 24 World.hello) as (url & parsed & curl & Hu & Hp & Hc & Hb);
    [unfold ITEM_LIMIT; lia|reflexivity|].
  rewrite Hb.
  assert (url = "https://example.com/a") as -> by (vm_compute in Hu; congruence).
  assert (curl = "gemini://remini.example/r/test/comments/abc/hello/") as ->
    by (vm_compute in Hc; congruence).
  assert (parsed = Url.Parsed "https" "example.com" "/a" "") as ->
    by (vm_compute in Hp; congruence).
  reflexivity.
Defined.

Lemma produce_always_answers_witness :
  produce None (Some "q") = bad_request GENERIC_ERR_MSG
  /\ produce (Some "/%2F") None = bad_request GENERIC_ERR_MSG
  /\ produce (Some "/u/someuser") None
     = ok ["# Redditor: someuser"; "User is banned or suspended."] true.
Proof.
  destruct (produce_always_answers (Some "/u/someuser") None)
    as (_ & _ & _ & Hok).
  destruct (produce_always_answers (Some "/%2F") None) as (_ & Hnone & Hgen & _).
  assert (Hraise : raises (handle_request pages "/%2F" (default "" None) false))
    by (exists IndexError; reflexivity).
  assert (Hrun : handle_request pages "/u/someuser" (default "" None) false
                 = Ok (RBytes (ok ["# Redditor: someuser";
                                   "User is banned or suspended."] true)))
    by reflexivity.
  split; [reflexivity|]. split.
  - exact (proj2 (Hgen "/%2F") Hraise).
  - exact (Hok "/u/someuser" _ Hrun).
Defined.

Lemma startup_outcome_witness :
  startup sample_environ sample_host
  = inr ({| st_BASE_URL := "gemini://remini.example/";
            st_PRAW_FILE := "praw.txt";
            st_LOG_FILE := None;
            st_LANDING_PAGE := None;
            st_CLIENT_ID := "id";
            st_CLIENT_SECRET := "secret";
            st_USER_AGENT := "agent 1.0" |},
         {| cr_user_agent := "agent 1.0";
            cr_client_id := "id";
            cr_client_secret := "secret" |})
  /\ startup (<["REMINI_LOG_FILE" := "/nowhere/remini.log"]> sample_environ)
       sample_host
     = inl CannotOpenLog
  /\ startup (delete "REMINI_BASE_URL" sample_environ) sample_host
     = inl MissingVariable.
Proof.
  destruct (startup_outcome sample_environ sample_host) as (_ & Hrun & _).
  destruct (startup_outcome
              (<["REMINI_LOG_FILE" := "/nowhere/remini.log"]> sample_environ)
              sample_host) as (_ & Hlog & _).
  destruct (startup_outcome (delete "REMINI_BASE_URL" sample_environ)
              sample_host) as (Hmissing & _).
  split; [|split].
  - assert (Hb : sample_environ !! "REMINI_BASE_URL"
                 = Some "gemini://remini.example/") by reflexivity.
    assert (Hf : sample_environ !! "REMINI_PRAW_FILE" = Some "praw.txt")
      by reflexivity.
    assert (Hquiet : ~ log_fails sample_environ sample_host)
      by (intros (name & Hname & _); discriminate Hname).
    destruct (Hrun _ _ Hb Hf) as (_ & Hpast).
    destruct (Hpast Hquiet) as (_ & _ & _ & Hok).
    apply Hok.
    exists ("  id" +:+ LF), ("secret" +:+ LF), ("agent 1.0 " +:+ LF).
    repeat split; reflexivity.
  - assert (Hb : <["REMINI_LOG_FILE" := "/nowhere/remini.log"]> sample_environ
                   !! "REMINI_BASE_URL"
                 = Some "gemini://remini.example/") by reflexivity.
    assert (Hf : <["REMINI_LOG_FILE" := "/nowhere/remini.log"]> sample_environ
                   !! "REMINI_PRAW_FILE" = Some "praw.txt")
      by reflexivity.
    destruct (Hlog _ _ Hb Hf) as (Hfails & _).
    apply Hfails. exists "/nowhere/remini.log".
    split; [reflexivity|]. split; [discriminate|reflexivity].
  - apply Hmissing. left. reflexivity.
Defined.
